(** * Drug supply-chain chaincode (chaincode/drugChaincode.go)

    A shallow embedding of the Fabric smart contract that registers, ships,
    recalls and tracks drug batches, and the properties of its custody
    state machine.

    The contract talks to three collaborators that are not part of the
    repository: the ledger stub ([GetState], [PutState], [SetEvent]), the
    client identity ([GetMSPID]) and Go's [encoding/json] and [time]
    packages.  The stub and the identity are modelled by the transaction
    context and an explicit world state; the JSON codec and the clock are
    parameters of the development (class [Runtime]). *)

From Stdlib Require Import ZArith Ascii String.
From Stdlib.Strings Require Import Byte.
From stdpp Require Import gmap strings list.

Local Open Scope string_scope.

(** ** Data model *)

(** [type Drug struct].  A Go [[]string] is a [list string]; the nil slice
    and the empty slice are both [[]] (the contract only builds slices by a
    one-element literal, by [append] and by decoding). *)
Record Drug := mkDrug {
  DrugID : string;
  Name : string;
  Manufacturer : string;
  BatchNumber : string;
  MfgDate : string;
  ExpiryDate : string;
  Composition : string;
  CurrentOwner : string;
  Status : string;
  History : list string;
  IsRecalled : bool;
  InspectionNotes : list string
}.

(** The zero value that [var drug Drug] declares. *)
Definition Drug0 : Drug :=
  mkDrug EmptyString EmptyString EmptyString EmptyString EmptyString
         EmptyString EmptyString EmptyString EmptyString [] false [].

(** Field assignments [drug.F = v]. *)
Definition set_CurrentOwner (v : string) (d : Drug) : Drug :=
  mkDrug (DrugID d) (Name d) (Manufacturer d) (BatchNumber d) (MfgDate d)
         (ExpiryDate d) (Composition d) v (Status d) (History d)
         (IsRecalled d) (InspectionNotes d).

Definition set_Status (v : string) (d : Drug) : Drug :=
  mkDrug (DrugID d) (Name d) (Manufacturer d) (BatchNumber d) (MfgDate d)
         (ExpiryDate d) (Composition d) (CurrentOwner d) v (History d)
         (IsRecalled d) (InspectionNotes d).

Definition set_History (v : list string) (d : Drug) : Drug :=
  mkDrug (DrugID d) (Name d) (Manufacturer d) (BatchNumber d) (MfgDate d)
         (ExpiryDate d) (Composition d) (CurrentOwner d) (Status d) v
         (IsRecalled d) (InspectionNotes d).

Definition set_IsRecalled (v : bool) (d : Drug) : Drug :=
  mkDrug (DrugID d) (Name d) (Manufacturer d) (BatchNumber d) (MfgDate d)
         (ExpiryDate d) (Composition d) (CurrentOwner d) (Status d)
         (History d) v (InspectionNotes d).

Definition set_InspectionNotes (v : list string) (d : Drug) : Drug :=
  mkDrug (DrugID d) (Name d) (Manufacturer d) (BatchNumber d) (MfgDate d)
         (ExpiryDate d) (Composition d) (CurrentOwner d) (Status d)
         (History d) (IsRecalled d) v.

(** ** Errors and results *)

(** The [error] values the contract returns.  The first five are its own
    [fmt.Errorf] values; the other two are handed up from the stub and from
    [json.Unmarshal], whose errors are kept as their messages. *)
Inductive error :=
| ErrOnlyManufacturer
| ErrAlreadyExists (drugID : string)
| ErrNotFound (drugID : string)
| ErrNotOwner
| ErrOnlyRegulator
| ErrStub (msg : string)
| ErrJSON (msg : string).

(** [err.Error()]. *)
Definition Error (e : error) : string :=
  match e with
  | ErrOnlyManufacturer => "only Cipla (Manufacturer) can register drugs"
  | ErrAlreadyExists drugID => "drug with ID " +:+ drugID +:+ " already exists"
  | ErrNotFound drugID => "drug " +:+ drugID +:+ " not found"
  | ErrNotOwner => "only the current owner can ship this drug"
  | ErrOnlyRegulator => "only CDSCO (Regulator) can recall drugs"
  | ErrStub msg => msg
  | ErrJSON msg => msg
  end.

(** The error kinds of the specification's taxonomy. *)
Inductive ErrorKind :=
| Unauthorized
| AlreadyExists
| NotFound
| InvalidState
| IdentityUnavailable
| StoreUnavailable
| DecodeFailed.

Definition kindOf (e : error) : ErrorKind :=
  match e with
  | ErrOnlyManufacturer => Unauthorized
  | ErrAlreadyExists _ => AlreadyExists
  | ErrNotFound _ => NotFound
  | ErrNotOwner => Unauthorized
  | ErrOnlyRegulator => Unauthorized
  | ErrStub _ => StoreUnavailable
  | ErrJSON _ => DecodeFailed
  end.

(** A Go run-time panic. *)
Inductive panic :=
| SliceBoundsOutOfRange (hi : Z).

(** How a contract function ends: it returns (with a nil error and a
    value), returns a non-nil error, or panics. *)
Inductive result (A : Type) :=
| Ok (a : A)
| Err (e : error)
| Panicked (p : panic).
Arguments Ok {A} a.
Arguments Err {A} e.
Arguments Panicked {A} p.

(** The function returned a nil error. *)
Definition succeeded {A : Type} (r : result A) : bool :=
  match r with
  | Ok _ => true
  | _ => false
  end.

(** ** World state and transaction context *)

(** What the contract can change: the ledger (world state, one byte string
    per key), the chaincode events set so far, and the number of times the
    wall clock has been read. *)
Record World := mkWorld {
  ledger : gmap string (list byte);
  events : list (string * list byte);
  ticks : nat
}.

Definition set_ledger (l : gmap string (list byte)) (w : World) : World :=
  mkWorld l (events w) (ticks w).

(** [contractapi.TransactionContextInterface], as far as the contract uses
    it: the caller's identity and the failures of the stub.  [GetMSPID] is
    the pair that [ctx.GetClientIdentity().GetMSPID()] returns. *)
Record TransactionContext := mkCtx {
  GetMSPID : string * option string;
  GetState_fails : string -> option string;
  PutState_fails : string -> list byte -> option string
}.

(** ** Go's json and time packages *)

(** [json.Marshal] on a [Drug] (it cannot fail on a struct of strings,
    booleans and string slices, so the error the contract discards is always
    nil), [json.Unmarshal] into a [Drug] variable (the destination goes in,
    the possibly updated destination and the error come out), and the
    successive values of [time.Now().Format(...)]. *)
Class Runtime := {
  json_Marshal : Drug -> list byte;
  json_Unmarshal : list byte -> Drug -> Drug * option string;
  time_Now_Format : nat -> string
}.

(** ** The transaction monad *)

Definition Tx (A : Type) : Type := World -> result A * World.

#[global] Instance Tx_ret : MRet Tx := fun A a w => (Ok a, w).

#[global] Instance Tx_bind : MBind Tx := fun A B f m w =>
  match m w with
  | (Ok a, w') => f a w'
  | (Err e, w') => (Err e, w')
  | (Panicked p, w') => (Panicked p, w')
  end.

(** [return err] with a non-nil error. *)
Definition throw {A : Type} (e : error) : Tx A := fun w => (Err e, w).

Definition raise {A : Type} (p : panic) : Tx A := fun w => (Panicked p, w).

(** [err != nil]. *)
Definition notnil {A : Type} (err : option A) : bool :=
  match err with
  | Some _ => true
  | None => false
  end.

(** [return err] where [err] may be nil. *)
Definition return_ (err : option error) : Tx unit :=
  match err with
  | None => mret tt
  | Some e => throw e
  end.

(** ** Stub operations *)

(** [GetState] returns the bytes stored under the key, nil ([None]) when
    there are none, or an error. *)
Definition GetState (ctx : TransactionContext) (key : string)
  : Tx (option (list byte) * option error) := fun w =>
  match GetState_fails ctx key with
  | Some msg => (Ok (None, Some (ErrStub msg)), w)
  | None => (Ok (ledger w !! key, None), w)
  end.

(** [PutState] stores the value under the key unless the stub refuses.  The
    contract only writes what [json.Marshal] returns for a struct, which is
    never empty, so what the stub does with an empty value plays no part. *)
Definition PutState (ctx : TransactionContext) (key : string) (value : list byte)
  : Tx (option error) := fun w =>
  match PutState_fails ctx key value with
  | Some msg => (Ok (Some (ErrStub msg)), w)
  | None => (Ok None, set_ledger (<[key := value]> (ledger w)) w)
  end.

(** [SetEvent] refuses an empty event name and records the event otherwise. *)
Definition SetEvent (ctx : TransactionContext) (name : string) (payload : list byte)
  : Tx (option error) := fun w =>
  if String.eqb name EmptyString
  then (Ok (Some (ErrStub "event name can not be empty string")), w)
  else (Ok None, mkWorld (ledger w) (events w ++ [(name, payload)]) (ticks w)).

(** [func getMSPID(ctx)]. *)
Definition getMSPID (ctx : TransactionContext) : Tx (string * option string) :=
  mret (GetMSPID ctx).

(** [func getTimestamp()]: one reading of the clock. *)
Definition getTimestamp `{Runtime} : Tx string := fun w =>
  (Ok (time_Now_Format (ticks w)), mkWorld (ledger w) (events w) (S (ticks w))).

(** ** Go expressions *)

(** [len(s)], an [int]. *)
Definition len (s : string) : Z := Z.of_nat (String.length s).

(** The slice expression [s[:hi]]: it panics unless [0 <= hi <= len(s)]. *)
Definition slice_to (s : string) (hi : Z) : Tx string :=
  if (0 <=? hi)%Z && (hi <=? len s)%Z
  then mret (String.substring 0 (Z.to_nat hi) s)
  else raise (SliceBoundsOutOfRange hi).

(** The value of [mspID[:len(mspID)-3]] when the slice is in bounds: the MSP
    ID without its last three bytes, "Cipla" from "CiplaMSP". *)
Definition trimMSP (mspID : string) : string :=
  String.substring 0 (Z.to_nat (len mspID - 3)) mspID.

(** [[]byte(s)] and [string(b)]. *)
Definition bytes_of (s : string) : list byte := list_byte_of_string s.
Definition string_of (b : list byte) : string := string_of_list_byte b.

(** The history line format, ["timestamp|event|from|to|details"]. *)
Definition historyLine (timestamp event from to details : string) : string :=
  timestamp +:+ "|" +:+ event +:+ "|" +:+ from +:+ "|" +:+ to +:+ "|" +:+ details.

(** ** The contract *)

Section Contract.
Context `{RT : Runtime}.

(** [func (s *SmartContract) RegisterDrug]. *)
Definition RegisterDrug (ctx : TransactionContext)
    (drugID name batchNumber mfgDate expiryDate composition : string) : Tx unit :=
  '(mspID, err) ← getMSPID ctx;
  if notnil err || negb (String.eqb mspID "CiplaMSP")
  then throw ErrOnlyManufacturer
  else
    '(existing, err) ← GetState ctx drugID;
    match err with
    | Some e => throw e
    | None =>
      match existing with
      | Some _ => throw (ErrAlreadyExists drugID)
      | None =>
        ts ← getTimestamp;
        let drug := mkDrug drugID name "Cipla" batchNumber mfgDate expiryDate
                      composition "Cipla" "InProduction"
                      [ts +:+ "|Created|Cipla|-|Batch: " +:+ batchNumber]
                      false [] in
        let bytes := json_Marshal drug in
        err ← PutState ctx drugID bytes;
        return_ err
      end
    end.

(** [func (s *SmartContract) ShipDrug]. *)
Definition ShipDrug (ctx : TransactionContext) (drugID to : string) : Tx unit :=
  '(drugBytes, err) ← GetState ctx drugID;
  match err, drugBytes with
  | None, Some drugBytes =>
    let '(drug, err) := json_Unmarshal drugBytes Drug0 in
    match err with
    | Some msg => throw (ErrJSON msg)
    | None =>
      '(mspID, _) ← getMSPID ctx;
      role ← slice_to mspID (len mspID - 3);
      if negb (String.eqb (CurrentOwner drug) role)
      then throw ErrNotOwner
      else
        let from := CurrentOwner drug in
        let drug := set_CurrentOwner to drug in
        let drug := set_Status "InTransit" drug in
        ts ← getTimestamp;
        let drug := set_History
                      (History drug ++ [ts +:+ "|Shipped|" +:+ from +:+ "|" +:+ to +:+ "|"])
                      drug in
        _ ← SetEvent ctx "DrugShipped" (bytes_of drugID);
        let bytes := json_Marshal drug in
        err ← PutState ctx drugID bytes;
        return_ err
    end
  | _, _ => throw (ErrNotFound drugID)
  end.

(** [func (s *SmartContract) RecallDrug]. *)
Definition RecallDrug (ctx : TransactionContext) (drugID reason : string) : Tx unit :=
  '(mspID, err) ← getMSPID ctx;
  if notnil err || negb (String.eqb mspID "CDSCOMSP")
  then throw ErrOnlyRegulator
  else
    '(drugBytes, err) ← GetState ctx drugID;
    match err, drugBytes with
    | None, Some drugBytes =>
      let '(drug, _) := json_Unmarshal drugBytes Drug0 in
      let drug := set_IsRecalled true drug in
      let drug := set_Status "Recalled" drug in
      ts ← getTimestamp;
      let drug := set_InspectionNotes
                    (InspectionNotes drug ++ [ts +:+ ": " +:+ reason]) drug in
      ts ← getTimestamp;
      let drug := set_History
                    (History drug ++ [ts +:+ "|Recalled|CDSCO|-|Reason: " +:+ reason])
                    drug in
      _ ← SetEvent ctx "DrugRecalled" (bytes_of drugID);
      let bytes := json_Marshal drug in
      err ← PutState ctx drugID bytes;
      return_ err
    | _, _ => throw (ErrNotFound drugID)
    end.

(** [func (s *SmartContract) TrackDrug]. *)
Definition TrackDrug (ctx : TransactionContext) (drugID : string) : Tx string :=
  '(data, err) ← GetState ctx drugID;
  match err, data with
  | None, Some data => mret (string_of data)
  | _, _ => throw (ErrNotFound drugID)
  end.

End Contract.

(** ** Transactions in sequence *)

(** One invocation of the contract: the function called and its arguments. *)
Inductive Invocation :=
| InvRegisterDrug (drugID name batchNumber mfgDate expiryDate composition : string)
| InvShipDrug (drugID to : string)
| InvRecallDrug (drugID reason : string)
| InvTrackDrug (drugID : string).

Section Sequences.
Context `{RT : Runtime}.

(** An invocation: how it ends (the value [TrackDrug] returns is dropped)
    and the world it leaves. *)
Definition invoke (ctx : TransactionContext) (i : Invocation) : Tx unit :=
  match i with
  | InvRegisterDrug drugID name batchNumber mfgDate expiryDate composition =>
      RegisterDrug ctx drugID name batchNumber mfgDate expiryDate composition
  | InvShipDrug drugID to => ShipDrug ctx drugID to
  | InvRecallDrug drugID reason => RecallDrug ctx drugID reason
  | InvTrackDrug drugID => _ ← TrackDrug ctx drugID; mret tt
  end.

(** Invocations by any callers, one after the other, whatever their
    results. *)
Definition invokeAll (calls : list (TransactionContext * Invocation)) (w : World) : World :=
  fold_left (fun w c => snd (invoke (fst c) (snd c) w)) calls w.

(** An invocation that updates the record stored under [drugID]. *)
Definition updates (i : Invocation) (drugID : string) : bool :=
  match i with
  | InvShipDrug k _ => String.eqb k drugID
  | InvRecallDrug k _ => String.eqb k drugID
  | _ => false
  end.

(** The record persisted under a key: the stored bytes, decoded as the
    contract decodes them; [None] when the key is absent or its bytes do not
    decode. *)
Definition persisted (w : World) (drugID : string) : option Drug :=
  match ledger w !! drugID with
  | Some data =>
      match json_Unmarshal data Drug0 with
      | (drug, None) => Some drug
      | (_, Some _) => None
      end
  | None => None
  end.

(** The codec contract of the specification: decoding an encoded record
    gives the record back.  [encoding/json] meets it on the records whose
    strings are valid UTF-8; it writes any other byte as U+FFFD. *)
Definition json_roundtrip : Prop :=
  forall d : Drug, json_Unmarshal (json_Marshal d) Drug0 = (d, None).

(** One record survives the codec: its encoding decodes to it, without
    error.  With [encoding/json] this is a condition on the strings of the
    record (valid UTF-8). *)
Definition reads_back (d : Drug) : Prop :=
  json_Unmarshal (json_Marshal d) Drug0 = (d, None).

(** The codec reads its own output: decoding an encoded record gives no
    error, whatever record comes out. *)
Definition json_reads_own_output : Prop :=
  forall d : Drug, snd (json_Unmarshal (json_Marshal d) Drug0) = None.

End Sequences.

(** ** A reference codec and clock

    An instance of [Runtime] to run the contract on concrete ledgers.  The
    encoder writes the document [json.Marshal] writes for a [Drug] (keys in
    field order, a nil slice as [null], the quote and the backslash escaped;
    the two agree on strings of printable ASCII without the characters that
    Go writes as unicode escapes); the decoder reads these documents and
    refuses everything else, leaving the destination as it was. *)
Module Ref.

Definition dquote : ascii := Eval cbv in ascii_of_nat 34.
Definition backslash : ascii := Eval cbv in ascii_of_nat 92.

Definition special (c : ascii) : bool := Ascii.eqb c dquote || Ascii.eqb c backslash.

(** Encoders take the text that follows as their last argument. *)
Fixpoint escape (s k : string) : string :=
  match s with
  | EmptyString => k
  | String c s' =>
      if special c then String backslash (String c (escape s' k))
      else String c (escape s' k)
  end.

Definition encString (s k : string) : string :=
  String dquote (escape s (String dquote k)).

Fixpoint encElems (x : string) (l : list string) (k : string) : string :=
  encString x
    match l with
    | [] => String "]" k
    | y :: l' => String "," (encElems y l' k)
    end.

Definition encArray (l : list string) (k : string) : string :=
  match l with
  | [] => "null" +:+ k
  | x :: l' => String "[" (encElems x l' k)
  end.

Definition encBool (b : bool) (k : string) : string :=
  (if b then "true" else "false") +:+ k.

Definition encKey (name k : string) : string :=
  String dquote (name +:+ String dquote (String ":" k)).

Definition encDrug (d : Drug) : string :=
  String "{"
    (encKey "drugId" (encString (DrugID d) (String ","
    (encKey "name" (encString (Name d) (String ","
    (encKey "manufacturer" (encString (Manufacturer d) (String ","
    (encKey "batchNumber" (encString (BatchNumber d) (String ","
    (encKey "mfgDate" (encString (MfgDate d) (String ","
    (encKey "expiryDate" (encString (ExpiryDate d) (String ","
    (encKey "composition" (encString (Composition d) (String ","
    (encKey "currentOwner" (encString (CurrentOwner d) (String ","
    (encKey "status" (encString (Status d) (String ","
    (encKey "history" (encArray (History d) (String ","
    (encKey "isRecalled" (encBool (IsRecalled d) (String ","
    (encKey "inspectionNotes" (encArray (InspectionNotes d) "}"))))))))))))))))))))))))))))))))))).

(** Parsers return the value read and the text left. *)
Fixpoint lit (p s : string) : option string :=
  match p with
  | EmptyString => Some s
  | String c p' =>
      match s with
      | String c' s' => if Ascii.eqb c c' then lit p' s' else None
      | EmptyString => None
      end
  end.

Fixpoint unescape (s : string) : option (string * string) :=
  match s with
  | EmptyString => None
  | String c r =>
      if Ascii.eqb c dquote then Some (EmptyString, r)
      else if Ascii.eqb c backslash then
        match r with
        | String c' r' =>
            if special c'
            then match unescape r' with
                 | Some (x, rest) => Some (String c' x, rest)
                 | None => None
                 end
            else None
        | EmptyString => None
        end
      else match unescape r with
           | Some (x, rest) => Some (String c x, rest)
           | None => None
           end
  end.

Definition pString (s : string) : option (string * string) :=
  match s with
  | String c r => if Ascii.eqb c dquote then unescape r else None
  | EmptyString => None
  end.

Fixpoint pElems (fuel : nat) (s : string) : option (list string * string) :=
  match fuel with
  | O => None
  | S fuel' =>
      match pString s with
      | Some (x, String c r) =>
          if Ascii.eqb c "]" then Some ([x], r)
          else if Ascii.eqb c "," then
            match pElems fuel' r with
            | Some (xs, r') => Some (x :: xs, r')
            | None => None
            end
          else None
      | _ => None
      end
  end.

Definition pArray (s : string) : option (list string * string) :=
  match lit "null" s with
  | Some r => Some ([], r)
  | None =>
      match lit "[" s with
      | Some r =>
          match lit "]" r with
          | Some r' => Some ([], r')
          | None => pElems (String.length r) r
          end
      | None => None
      end
  end.

Definition pBool (s : string) : option (bool * string) :=
  match lit "true" s with
  | Some r => Some (true, r)
  | None =>
      match lit "false" s with
      | Some r => Some (false, r)
      | None => None
      end
  end.

Definition pKey (name s : string) : option string :=
  lit (String dquote (name +:+ String dquote ":")) s.

Definition pDrug (s : string) : option Drug :=
  s ← lit "{" s;
  s ← pKey "drugId" s; '(drugId, s) ← pString s; s ← lit "," s;
  s ← pKey "name" s; '(name, s) ← pString s; s ← lit "," s;
  s ← pKey "manufacturer" s; '(manufacturer, s) ← pString s; s ← lit "," s;
  s ← pKey "batchNumber" s; '(batchNumber, s) ← pString s; s ← lit "," s;
  s ← pKey "mfgDate" s; '(mfgDate, s) ← pString s; s ← lit "," s;
  s ← pKey "expiryDate" s; '(expiryDate, s) ← pString s; s ← lit "," s;
  s ← pKey "composition" s; '(composition, s) ← pString s; s ← lit "," s;
  s ← pKey "currentOwner" s; '(currentOwner, s) ← pString s; s ← lit "," s;
  s ← pKey "status" s; '(status, s) ← pString s; s ← lit "," s;
  s ← pKey "history" s; '(history, s) ← pArray s; s ← lit "," s;
  s ← pKey "isRecalled" s; '(isRecalled, s) ← pBool s; s ← lit "," s;
  s ← pKey "inspectionNotes" s; '(inspectionNotes, s) ← pArray s;
  s ← lit "}" s;
  if String.eqb s EmptyString
  then Some (mkDrug drugId name manufacturer batchNumber mfgDate expiryDate
               composition currentOwner status history isRecalled inspectionNotes)
  else None.

Definition Marshal (d : Drug) : list byte := bytes_of (encDrug d).

Definition Unmarshal (data : list byte) (v : Drug) : Drug * option string :=
  match pDrug (string_of data) with
  | Some d => (d, None)
  | None => (v, Some "invalid character looking for beginning of value")
  end.

(** The clock: one second per reading. *)
Definition digit (n : nat) : ascii := ascii_of_nat (48 + n mod 10).

Definition Now (n : nat) : string :=
  "2024-03-01 12:00:" +:+ String (digit (n / 10 mod 6)) (String (digit n) EmptyString).

Definition runtime : Runtime :=
  {| json_Marshal := Marshal; json_Unmarshal := Unmarshal; time_Now_Format := Now |}.

End Ref.


(** ** Concrete callers and worlds *)
Module Scenario.

#[local] Existing Instance Ref.runtime.

Definition caller (mspID : string) : TransactionContext :=
  mkCtx (mspID, None) (fun _ => None) (fun _ _ => None).

Definition cipla : TransactionContext := caller "CiplaMSP".
Definition cdsco : TransactionContext := caller "CDSCOMSP".
Definition medlife : TransactionContext := caller "MedlifeMSP".

(** A caller whose identity cannot be resolved. *)
Definition anonymous : TransactionContext :=
  mkCtx (EmptyString, Some "failed to read MSP ID") (fun _ => None) (fun _ _ => None).

Definition w0 : World := mkWorld ∅ [] 0.

(** After [RegisterDrug DRUG-1] by Cipla. *)
Definition w1 : World :=
  snd (RegisterDrug cipla "DRUG-1" "ParacetamolX" "B100" "2024-01-01" "2026-01-01"
         "Paracetamol 500mg" w0).

(** ... then [RecallDrug DRUG-1] by CDSCO. *)
Definition w2 : World := snd (RecallDrug cdsco "DRUG-1" "contamination" w1).

(** A ledger whose entry is not a JSON document. *)
Definition wbad : World := mkWorld {[ "DRUG-1" := bytes_of "oops" ]} [] 0.

(** The records persisted in [w1] and [w2]. *)
Definition d1 : Drug :=
  mkDrug "DRUG-1" "ParacetamolX" "Cipla" "B100" "2024-01-01" "2026-01-01"
    "Paracetamol 500mg" "Cipla" "InProduction"
    ["2024-03-01 12:00:00|Created|Cipla|-|Batch: B100"] false [].

Definition d2 : Drug :=
  mkDrug "DRUG-1" "ParacetamolX" "Cipla" "B100" "2024-01-01" "2026-01-01"
    "Paracetamol 500mg" "Cipla" "Recalled"
    ["2024-03-01 12:00:00|Created|Cipla|-|Batch: B100";
     "2024-03-01 12:00:02|Recalled|CDSCO|-|Reason: contamination"]
    true ["2024-03-01 12:00:01: contamination"].

(** What callers try on a recalled batch. *)
Definition later : list (TransactionContext * Invocation) :=
  [ (cipla, InvShipDrug "DRUG-1" "DistributorA");
    (cipla, InvRegisterDrug "DRUG-1" "Placebo" "B200" "2025-01-01" "2027-01-01" "Sugar");
    (medlife, InvRecallDrug "DRUG-1" "none");
    (cdsco, InvRecallDrug "DRUG-1" "second notice");
    (medlife, InvTrackDrug "DRUG-1") ].

End Scenario.

(** ** Ledgers written by the contract *)

(** The drug ID an invocation names. *)
Definition target (i : Invocation) : string :=
  match i with
  | InvRegisterDrug drugID _ _ _ _ _ => drugID
  | InvShipDrug drugID _ => drugID
  | InvRecallDrug drugID _ => drugID
  | InvTrackDrug drugID => drugID
  end.

(** What holds of a record that [RegisterDrug] created under [key] and that
    [ShipDrug] and [RecallDrug] updated since. *)
Definition contractRecord (key : string) (d : Drug) : Prop :=
  DrugID d = key /\ Manufacturer d = "Cipla" /\
  (exists ts, head (History d) = Some (ts +:+ "|Created|Cipla|-|Batch: " +:+ BatchNumber d)) /\
  (Status d = "InProduction" \/ Status d = "InTransit" \/ Status d = "Recalled") /\
  (Status d = "InProduction" ->
     CurrentOwner d = "Cipla" /\ List.length (History d) = 1 /\ IsRecalled d = false) /\
  (Status d = "Recalled" -> IsRecalled d = true) /\
  (IsRecalled d = true <-> InspectionNotes d <> []) /\
  List.length (InspectionNotes d) < List.length (History d).

(** Every entry of the ledger is the encoding of such a record. *)
Definition contractLedger `{Runtime} (w : World) : Prop :=
  forall (key : string) (data : list byte),
    ledger w !! key = Some data ->
    exists d, data = json_Marshal d /\ contractRecord key d.

(** A supply chain on the reference runtime: Cipla registers two batches and
    ships the first, Medlife passes it on, CDSCO recalls the second. *)
Module Tour.

Import Scenario.

Definition apollo : TransactionContext := caller "ApolloMSP".

(** A caller whose stub does not answer reads, and one whose stub refuses
    writes. *)
Definition blind (mspID : string) : TransactionContext :=
  mkCtx (mspID, None) (fun _ => Some "ledger unavailable") (fun _ _ => None).

Definition readonly (mspID : string) : TransactionContext :=
  mkCtx (mspID, None) (fun _ => None) (fun _ _ => Some "write refused").

Definition story : list (TransactionContext * Invocation) :=
  [ (cipla, InvRegisterDrug "DRUG-1" "ParacetamolX" "B100" "2024-01-01" "2026-01-01"
              "Paracetamol 500mg");
    (cipla, InvRegisterDrug "DRUG-2" "Ibuprofen" "B101" "2024-02-01" "2026-02-01"
              "Ibuprofen 200mg");
    (cipla, InvShipDrug "DRUG-1" "Medlife");
    (cipla, InvShipDrug "DRUG-1" "Apollo");
    (medlife, InvShipDrug "DRUG-1" "Apollo");
    (cdsco, InvRecallDrug "DRUG-2" "contamination");
    (apollo, InvTrackDrug "DRUG-2") ].

End Tour.

(** * Properties *)

(** ** The reference codec satisfies the codec contract *)
Module RefFacts.
Import Ref.

Lemma lit_app (p k : string) : lit p (p +:+ k) = Some k.
Proof.
  induction p as [|c p IH]; simpl; [reflexivity|].
  rewrite Ascii.eqb_refl. exact IH.
Qed.

Lemma unescape_escape (s k : string) :
  unescape (escape s (String dquote k)) = Some (s, k).
Proof.
  induction s as [|c s IH]; simpl.
  - reflexivity.
  - destruct (special c) eqn:Hsp.
    + cbn [unescape]. rewrite Hsp, IH.
      unfold special in Hsp.
      destruct (Ascii.eqb c dquote) eqn:Hq.
      * apply Ascii.eqb_eq in Hq. subst c. reflexivity.
      * simpl in Hsp. rewrite Hsp. reflexivity.
    + cbn [unescape]. unfold special in Hsp.
      apply orb_false_iff in Hsp as [Hq Hb].
      rewrite Hq, Hb, IH. reflexivity.
Qed.

Lemma pString_encString (s k : string) : pString (encString s k) = Some (s, k).
Proof. unfold pString, encString. rewrite Ascii.eqb_refl. apply unescape_escape. Qed.

Lemma pElems_encElems (l : list string) :
  forall (x k : string) (fuel : nat),
    List.length l < fuel -> pElems fuel (encElems x l k) = Some (x :: l, k).
Proof.
  induction l as [|y l IH]; intros x k fuel Hfuel;
    (destruct fuel as [|fuel]; [lia|]); cbn [pElems encElems];
    rewrite pString_encString.
  - reflexivity.
  - cbn [Ascii.eqb Bool.eqb]. rewrite IH by (simpl in Hfuel; lia). reflexivity.
Qed.

Lemma length_escape (s k : string) : String.length k <= String.length (escape s k).
Proof.
  induction s as [|c s IH]; simpl; [lia|].
  destruct (special c); simpl; lia.
Qed.

Lemma length_encElems (l : list string) :
  forall x k : string, List.length l < String.length (encElems x l k).
Proof.
  induction l as [|y l IH]; intros x k; cbn [encElems]; unfold encString;
    cbn [String.length].
  - pose proof (length_escape x (String dquote (String "]" k))). simpl in *. lia.
  - pose proof (length_escape x (String dquote (String "," (encElems y l k)))) as H.
    pose proof (IH y k). cbn [String.length] in H. simpl. lia.
Qed.

Lemma encElems_head (x : string) (l : list string) (k : string) :
  exists r : string, encElems x l k = String dquote r.
Proof. destruct l; cbn [encElems]; unfold encString; eauto. Qed.

Lemma pArray_open (r : string) :
  lit "]" r = None -> pArray (String "[" r) = pElems (String.length r) r.
Proof.
  intros H. unfold pArray.
  change (lit "null" (String "[" r)) with (@None string).
  change (lit "[" (String "[" r)) with (Some r).
  cbv beta iota. rewrite H. reflexivity.
Qed.

Lemma pArray_encArray (l : list string) (k : string) :
  pArray (encArray l k) = Some (l, k).
Proof.
  destruct l as [|x l]; unfold encArray.
  - unfold pArray. rewrite lit_app. reflexivity.
  - rewrite pArray_open.
    + apply (pElems_encElems l x k). apply length_encElems.
    + destruct (encElems_head x l k) as [r ->]. reflexivity.
Qed.

Lemma pBool_encBool (b : bool) (k : string) : pBool (encBool b k) = Some (b, k).
Proof. destruct b; reflexivity. Qed.

Lemma append_assoc (a b c : string) : (a +:+ b) +:+ c = a +:+ (b +:+ c).
Proof.
  induction a as [|x a IH]; [reflexivity|].
  change (String x ((a +:+ b) +:+ c) = String x (a +:+ (b +:+ c))).
  rewrite IH. reflexivity.
Qed.

Lemma pKey_encKey (name k : string) : pKey name (encKey name k) = Some k.
Proof.
  unfold pKey, encKey.
  replace (String dquote (name +:+ String dquote (String ":" k)))
    with (String dquote (name +:+ String dquote ":") +:+ k).
  - apply lit_app.
  - change (String dquote ((name +:+ String dquote ":") +:+ k)
            = String dquote (name +:+ (String dquote ":" +:+ k))).
    rewrite append_assoc. reflexivity.
Qed.

Lemma pDrug_encDrug (d : Drug) : pDrug (encDrug d) = Some d.
Proof.
  destruct d. unfold pDrug, encDrug.
  cbn [lit Ascii.eqb Bool.eqb mbind option_bind
       DrugID Name Manufacturer BatchNumber MfgDate ExpiryDate Composition
       CurrentOwner Status History IsRecalled InspectionNotes].
  repeat (rewrite ?pKey_encKey, ?pString_encString, ?pArray_encArray, ?pBool_encBool;
          cbn [lit Ascii.eqb Bool.eqb mbind option_bind]).
  reflexivity.
Qed.

Lemma roundtrip : json_roundtrip (RT := runtime).
Proof.
  intros d. cbn [json_Unmarshal json_Marshal runtime]. unfold Unmarshal, Marshal.
  unfold string_of, bytes_of. rewrite string_of_list_byte_of_string.
  rewrite pDrug_encDrug. reflexivity.
Qed.

End RefFacts.

(** ** How each function leaves the world *)

(** Unfolds a contract function down to the case analysis it performs. *)
Ltac run :=
  unfold RegisterDrug, ShipDrug, RecallDrug, TrackDrug, invoke,
    GetState, PutState, SetEvent, getMSPID, getTimestamp, slice_to,
    return_, throw, raise, set_ledger;
  unfold mbind, mret, Tx_bind, Tx_ret;
  cbn [fst snd ledger events ticks notnil String.eqb Ascii.eqb Bool.eqb].

Ltac cases := repeat (case_match; simplify_eq/=; try tauto).

Section Steps.
Context `{RT : Runtime}.

(** [TrackDrug] changes nothing. *)
Lemma TrackDrug_world (ctx : TransactionContext) (drugID : string) (w : World) :
  snd (TrackDrug ctx drugID w) = w.
Proof. run. cases. Qed.

(** [RegisterDrug] either writes a fresh key or leaves the ledger alone. *)
Lemma RegisterDrug_inv (ctx : TransactionContext)
    (drugID name batchNumber mfgDate expiryDate composition : string) (w : World) :
  let out := RegisterDrug ctx drugID name batchNumber mfgDate expiryDate composition w in
  (fst out <> Ok tt /\ ledger (snd out) = ledger w)
  \/ (fst out = Ok tt /\ ledger w !! drugID = None /\
      ledger (snd out) =
        <[drugID := json_Marshal
            (mkDrug drugID name "Cipla" batchNumber mfgDate expiryDate composition
               "Cipla" "InProduction"
               [time_Now_Format (ticks w) +:+ "|Created|Cipla|-|Batch: " +:+ batchNumber]
               false [])]> (ledger w)).
Proof. run. cases; eauto 6. Qed.

(** [ShipDrug] either rewrites a record that decodes, or leaves the ledger
    alone. *)
Lemma ShipDrug_inv (ctx : TransactionContext) (drugID to : string) (w : World) :
  let out := ShipDrug ctx drugID to w in
  (fst out <> Ok tt /\ ledger (snd out) = ledger w)
  \/ (fst out = Ok tt /\
      exists data d, ledger w !! drugID = Some data /\
        json_Unmarshal data Drug0 = (d, None) /\
        ledger (snd out) =
          <[drugID := json_Marshal
              (set_History
                 (History d ++ [time_Now_Format (ticks w) +:+ "|Shipped|" +:+
                                CurrentOwner d +:+ "|" +:+ to +:+ "|"])
                 (set_Status "InTransit" (set_CurrentOwner to d)))]> (ledger w)).
Proof. run. cases; eauto 8. Qed.

(** [RecallDrug] either rewrites the entry from whatever decoding left in
    the destination, or leaves the ledger alone. *)
Lemma RecallDrug_inv (ctx : TransactionContext) (drugID reason : string) (w : World) :
  let out := RecallDrug ctx drugID reason w in
  (fst out <> Ok tt /\ ledger (snd out) = ledger w)
  \/ (fst out = Ok tt /\
      exists data d e, ledger w !! drugID = Some data /\
        json_Unmarshal data Drug0 = (d, e) /\
        ledger (snd out) =
          <[drugID := json_Marshal
              (set_History
                 (History d ++ [time_Now_Format (S (ticks w)) +:+
                                "|Recalled|CDSCO|-|Reason: " +:+ reason])
                 (set_InspectionNotes
                    (InspectionNotes d ++ [time_Now_Format (ticks w) +:+ ": " +:+ reason])
                    (set_Status "Recalled" (set_IsRecalled true d))))]> (ledger w)).
Proof. run. cases; eauto 10. Qed.

Lemma succeeded_false (r : result unit) : r <> Ok tt -> succeeded r = false.
Proof. destruct r as [[]|e|p]; [congruence|reflexivity..]. Qed.

(** The persisted record depends on the ledger only. *)
Lemma persisted_ledger (w w' : World) (drugID : string) :
  ledger w' = ledger w -> persisted w' drugID = persisted w drugID.
Proof. unfold persisted. intros ->. reflexivity. Qed.

Lemma persisted_insert_ne (w w' : World) (k drugID : string) (data : list byte) :
  ledger w' = <[k := data]> (ledger w) -> k <> drugID ->
  persisted w' drugID = persisted w drugID.
Proof.
  unfold persisted. intros -> Hne. rewrite lookup_insert_ne by exact Hne. reflexivity.
Qed.

Lemma persisted_insert (w w' : World) (drugID : string) (d : Drug) :
  json_roundtrip ->
  ledger w' = <[drugID := json_Marshal d]> (ledger w) ->
  persisted w' drugID = Some d.
Proof.
  unfold persisted. intros RTrip ->. rewrite lookup_insert_eq, RTrip. reflexivity.
Qed.

Lemma persisted_Some (w : World) (drugID : string) (d : Drug) :
  persisted w drugID = Some d <->
  exists data, ledger w !! drugID = Some data /\ json_Unmarshal data Drug0 = (d, None).
Proof.
  unfold persisted. split.
  - destruct (ledger w !! drugID) as [data|] eqn:Hk; [|discriminate].
    destruct (json_Unmarshal data Drug0) as [d' [msg|]] eqn:Hdec; [discriminate|].
    intros [= ->]. eauto.
  - intros (data & -> & ->). reflexivity.
Qed.

(** What one invocation does to a persisted record: nothing, or the update
    of a successful [ShipDrug] or [RecallDrug] on its key. *)
Lemma invoke_persisted (ctx : TransactionContext) (i : Invocation) (w : World)
    (drugID : string) (d : Drug) :
  json_roundtrip ->
  persisted w drugID = Some d ->
  let out := invoke ctx i w in
  (updates i drugID && succeeded (fst out) = false /\
   persisted (snd out) drugID = Some d)
  \/ (exists to ts, i = InvShipDrug drugID to /\ fst out = Ok tt /\
       persisted (snd out) drugID =
         Some (set_History
                 (History d ++ [ts +:+ "|Shipped|" +:+ CurrentOwner d +:+ "|" +:+ to +:+ "|"])
                 (set_Status "InTransit" (set_CurrentOwner to d))))
  \/ (exists reason ts1 ts2, i = InvRecallDrug drugID reason /\ fst out = Ok tt /\
       persisted (snd out) drugID =
         Some (set_History
                 (History d ++ [ts2 +:+ "|Recalled|CDSCO|-|Reason: " +:+ reason])
                 (set_InspectionNotes
                    (InspectionNotes d ++ [ts1 +:+ ": " +:+ reason])
                    (set_Status "Recalled" (set_IsRecalled true d))))).
Proof.
  intros RTrip Hd. pose proof Hd as (data & Hdata & Hdec)%persisted_Some.
  destruct i as [k name batchNumber mfgDate expiryDate composition|k to|k reason|k];
    cbn [invoke updates].
  - left. split; [reflexivity|].
    destruct (RegisterDrug_inv ctx k name batchNumber mfgDate expiryDate composition w)
      as [[_ Hl]|(_ & Hfresh & Hl)].
    + rewrite (persisted_ledger _ _ _ Hl). exact Hd.
    + rewrite (persisted_insert_ne _ _ _ _ _ Hl); [exact Hd|].
      intros ->. congruence.
  - destruct (ShipDrug_inv ctx k to w) as [[Hr Hl]|(Hr & data' & d' & Hk & Hdec' & Hl)].
    + left. split; [|rewrite (persisted_ledger _ _ _ Hl); exact Hd].
      rewrite (succeeded_false _ Hr). apply andb_false_r.
    + destruct (String.eqb_spec k drugID) as [->|Hne].
      * right; left. exists to, (time_Now_Format (ticks w)).
        split; [reflexivity|]. split; [exact Hr|].
        assert (d' = d) as -> by congruence.
        apply (persisted_insert w _ _ _ RTrip Hl).
      * left. split; [reflexivity|].
        rewrite (persisted_insert_ne _ _ _ _ _ Hl Hne). exact Hd.
  - destruct (RecallDrug_inv ctx k reason w)
      as [[Hr Hl]|(Hr & data' & d' & e & Hk & Hdec' & Hl)].
    + left. split; [|rewrite (persisted_ledger _ _ _ Hl); exact Hd].
      rewrite (succeeded_false _ Hr). apply andb_false_r.
    + destruct (String.eqb_spec k drugID) as [->|Hne].
      * right; right. exists reason, (time_Now_Format (ticks w)), (time_Now_Format (S (ticks w))).
        split; [reflexivity|]. split; [exact Hr|].
        assert (d' = d) as -> by congruence.
        apply (persisted_insert w _ _ _ RTrip Hl).
      * left. split; [reflexivity|].
        rewrite (persisted_insert_ne _ _ _ _ _ Hl Hne). exact Hd.
  - left. split; [reflexivity|].
    apply persisted_Some. exists data. split; [|exact Hdec].
    replace (snd ((TrackDrug ctx k ≫= λ _ : string, mret ()) w)) with w; [exact Hdata|].
    pose proof (TrackDrug_world ctx k w) as Hw.
    unfold mbind, Tx_bind. destruct (TrackDrug ctx k w) as [[v|e|p] w']; simpl in *; congruence.
Qed.

(** A stored key stays stored. *)
Lemma invoke_keeps_key (ctx : TransactionContext) (i : Invocation) (w : World)
    (drugID : string) :
  is_Some (ledger w !! drugID) -> is_Some (ledger (snd (invoke ctx i w)) !! drugID).
Proof.
  intros Hk.
  assert (forall w' k data, ledger w' = <[k := data]> (ledger w) ->
                            is_Some (ledger w' !! drugID)) as Hins.
  { intros w' k data ->. rewrite lookup_insert. case_decide; eauto. }
  destruct i as [k name batchNumber mfgDate expiryDate composition|k to|k reason|k];
    cbn [invoke].
  - destruct (RegisterDrug_inv ctx k name batchNumber mfgDate expiryDate composition w)
      as [[_ Hl]|(_ & _ & Hl)]; [rewrite Hl; exact Hk|eauto].
  - destruct (ShipDrug_inv ctx k to w) as [[_ Hl]|(_ & data & d & _ & _ & Hl)];
      [rewrite Hl; exact Hk|eauto].
  - destruct (RecallDrug_inv ctx k reason w) as [[_ Hl]|(_ & data & d & e & _ & _ & Hl)];
      [rewrite Hl; exact Hk|eauto].
  - pose proof (TrackDrug_world ctx k w) as Hw.
    unfold mbind, Tx_bind. destruct (TrackDrug ctx k w) as [[v|e|p] w']; simpl in *;
      subst w'; exact Hk.
Qed.

Lemma invokeAll_keeps_key (calls : list (TransactionContext * Invocation)) :
  forall (w : World) (drugID : string),
    is_Some (ledger w !! drugID) -> is_Some (ledger (invokeAll calls w) !! drugID).
Proof.
  induction calls as [|[ctx i] calls IH]; intros w drugID Hk; [exact Hk|].
  cbn [invokeAll fold_left fst snd]. apply IH. apply invoke_keeps_key. exact Hk.
Qed.

End Steps.

(** ** The paths through [ShipDrug] and [RecallDrug] *)
Section Paths.
Context `{RT : Runtime}.

Lemma slice_to_in_bounds (s : string) :
  (3 <= len s)%Z -> slice_to s (len s - 3) = mret (trimMSP s).
Proof.
  intros H. unfold slice_to, trimMSP.
  destruct (Z.leb_spec 0 (len s - 3)); [|lia].
  destruct (Z.leb_spec (len s - 3) (len s)); [|lia].
  reflexivity.
Qed.

Lemma slice_to_out_of_bounds (s : string) :
  (len s < 3)%Z -> slice_to s (len s - 3) = raise (SliceBoundsOutOfRange (len s - 3)).
Proof.
  intros H. unfold slice_to.
  destruct (Z.leb_spec 0 (len s - 3)); [lia|]. reflexivity.
Qed.

Lemma ShipDrug_not_found (ctx : TransactionContext) (drugID to : string) (w : World) :
  GetState_fails ctx drugID <> None \/ ledger w !! drugID = None ->
  ShipDrug ctx drugID to w = (Err (ErrNotFound drugID), w).
Proof.
  intros H. run. destruct (GetState_fails ctx drugID) as [msg|]; [reflexivity|].
  destruct H as [H|H]; [congruence|]. rewrite H. reflexivity.
Qed.

Lemma ShipDrug_decode_error (ctx : TransactionContext) (drugID to : string) (w : World)
    (data : list byte) (d : Drug) (msg : string) :
  GetState_fails ctx drugID = None -> ledger w !! drugID = Some data ->
  json_Unmarshal data Drug0 = (d, Some msg) ->
  ShipDrug ctx drugID to w = (Err (ErrJSON msg), w).
Proof. intros Hget Hk Hdec. run. rewrite Hget; cbn. rewrite Hk, Hdec. reflexivity. Qed.

Lemma ShipDrug_panics (ctx : TransactionContext) (drugID to : string) (w : World)
    (data : list byte) (d : Drug) :
  GetState_fails ctx drugID = None -> ledger w !! drugID = Some data ->
  json_Unmarshal data Drug0 = (d, None) ->
  (len (fst (GetMSPID ctx)) < 3)%Z ->
  ShipDrug ctx drugID to w
  = (Panicked (SliceBoundsOutOfRange (len (fst (GetMSPID ctx)) - 3)), w).
Proof.
  intros Hget Hk Hdec Hlen. unfold ShipDrug, GetState, getMSPID.
  unfold mbind, mret, Tx_bind, Tx_ret. rewrite Hget, Hk, Hdec.
  destruct (GetMSPID ctx) as [mspID e]. cbn [fst] in Hlen.
  rewrite (slice_to_out_of_bounds _ Hlen). reflexivity.
Qed.

Lemma ShipDrug_not_owner (ctx : TransactionContext) (drugID to : string) (w : World)
    (data : list byte) (d : Drug) :
  GetState_fails ctx drugID = None -> ledger w !! drugID = Some data ->
  json_Unmarshal data Drug0 = (d, None) ->
  (3 <= len (fst (GetMSPID ctx)))%Z ->
  CurrentOwner d <> trimMSP (fst (GetMSPID ctx)) ->
  ShipDrug ctx drugID to w = (Err ErrNotOwner, w).
Proof.
  intros Hget Hk Hdec Hlen Hne. unfold ShipDrug, GetState, getMSPID.
  unfold mbind, mret, Tx_bind, Tx_ret. rewrite Hget, Hk, Hdec.
  destruct (GetMSPID ctx) as [mspID e]. cbn [fst] in Hlen, Hne.
  rewrite (slice_to_in_bounds _ Hlen). unfold mret, Tx_ret.
  destruct (String.eqb_spec (CurrentOwner d) (trimMSP mspID)); [congruence|reflexivity].
Qed.

Lemma ShipDrug_owner (ctx : TransactionContext) (drugID to : string) (w : World)
    (data : list byte) (d : Drug) :
  GetState_fails ctx drugID = None -> ledger w !! drugID = Some data ->
  json_Unmarshal data Drug0 = (d, None) ->
  (3 <= len (fst (GetMSPID ctx)))%Z ->
  CurrentOwner d = trimMSP (fst (GetMSPID ctx)) ->
  let d' := set_History
              (History d ++ [time_Now_Format (ticks w) +:+ "|Shipped|" +:+
                             CurrentOwner d +:+ "|" +:+ to +:+ "|"])
              (set_Status "InTransit" (set_CurrentOwner to d)) in
  let said := (events w ++ [("DrugShipped", bytes_of drugID)])%list in
  ShipDrug ctx drugID to w
  = match PutState_fails ctx drugID (json_Marshal d') with
    | Some msg => (Err (ErrStub msg), mkWorld (ledger w) said (S (ticks w)))
    | None => (Ok tt, mkWorld (<[drugID := json_Marshal d']> (ledger w)) said (S (ticks w)))
    end.
Proof.
  intros Hget Hk Hdec Hlen Heq. unfold ShipDrug, GetState, getMSPID.
  unfold mbind, mret, Tx_bind, Tx_ret. rewrite Hget, Hk, Hdec.
  destruct (GetMSPID ctx) as [mspID e]. cbn [fst] in Hlen, Heq.
  rewrite (slice_to_in_bounds _ Hlen). unfold mret, Tx_ret.
  rewrite <- Heq, String.eqb_refl. cbn [negb]. run.
  change (History (set_Status "InTransit" (set_CurrentOwner to d))) with (History d).
  destruct (PutState_fails ctx drugID _); reflexivity.
Qed.

Lemma RecallDrug_not_regulator (ctx : TransactionContext) (drugID reason : string)
    (w : World) :
  GetMSPID ctx <> ("CDSCOMSP", None) ->
  RecallDrug ctx drugID reason w = (Err ErrOnlyRegulator, w).
Proof.
  intros Hid. run. destruct (GetMSPID ctx) as [mspID [msg|]]; cbn [notnil orb]; [reflexivity|].
  destruct (String.eqb_spec mspID "CDSCOMSP") as [->|Hne]; [congruence|reflexivity].
Qed.

Lemma RecallDrug_not_found (ctx : TransactionContext) (drugID reason : string)
    (w : World) :
  GetMSPID ctx = ("CDSCOMSP", None) ->
  GetState_fails ctx drugID <> None \/ ledger w !! drugID = None ->
  RecallDrug ctx drugID reason w = (Err (ErrNotFound drugID), w).
Proof.
  intros Hid H. run. rewrite Hid; cbn.
  destruct (GetState_fails ctx drugID) as [msg|]; [reflexivity|].
  destruct H as [H|H]; [congruence|]. cbn. rewrite H. reflexivity.
Qed.

Lemma RecallDrug_found (ctx : TransactionContext) (drugID reason : string) (w : World)
    (data : list byte) (d : Drug) (e : option string) :
  GetMSPID ctx = ("CDSCOMSP", None) ->
  GetState_fails ctx drugID = None -> ledger w !! drugID = Some data ->
  json_Unmarshal data Drug0 = (d, e) ->
  let d' := set_History
              (History d ++ [time_Now_Format (S (ticks w)) +:+
                             "|Recalled|CDSCO|-|Reason: " +:+ reason])
              (set_InspectionNotes
                 (InspectionNotes d ++ [time_Now_Format (ticks w) +:+ ": " +:+ reason])
                 (set_Status "Recalled" (set_IsRecalled true d))) in
  let said := (events w ++ [("DrugRecalled", bytes_of drugID)])%list in
  RecallDrug ctx drugID reason w
  = match PutState_fails ctx drugID (json_Marshal d') with
    | Some msg => (Err (ErrStub msg), mkWorld (ledger w) said (S (S (ticks w))))
    | None => (Ok tt, mkWorld (<[drugID := json_Marshal d']> (ledger w)) said (S (S (ticks w))))
    end.
Proof.
  intros Hid Hget Hk Hdec. run. rewrite Hid; cbn. rewrite Hget; cbn. rewrite Hk, Hdec.
  cbv zeta. cbn [History InspectionNotes set_InspectionNotes set_Status set_IsRecalled].
  destruct (PutState_fails ctx drugID _); reflexivity.
Qed.

End Paths.

(** ** Registration *)
Section Registration.
Context `{RT : Runtime}.

(** C2.  [RegisterDrug] creates a record exactly once per identifier.  A
    caller that is not the manufacturer (any MSP ID other than CiplaMSP, or
    an unresolved identity) gets the Unauthorized error and the world is
    left as it was.  For the manufacturer, with a readable ledger: at a
    taken identifier the call fails with AlreadyExists and writes nothing;
    at a free identifier, when the stub accepts the write, the call succeeds
    and stores the encoding of a record with status InProduction, owner and
    manufacturer Cipla, not recalled, no inspection notes and a history of
    exactly one Created line with to-party "-" and detail "Batch: <batch
    number>".  After that, whatever invocations follow, no [RegisterDrug] at
    the same identifier succeeds, and the manufacturer's fails with
    AlreadyExists. *)
Theorem RegisterDrug_exactly_once (ctx : TransactionContext)
    (drugID name batchNumber mfgDate expiryDate composition : string) (w : World) :
  let out := RegisterDrug ctx drugID name batchNumber mfgDate expiryDate composition w in
  (GetMSPID ctx <> ("CiplaMSP", None) ->
     exists e, out = (Err e, w) /\ kindOf e = Unauthorized) /\
  (GetMSPID ctx = ("CiplaMSP", None) -> GetState_fails ctx drugID = None ->
     match ledger w !! drugID with
     | Some _ => exists e, out = (Err e, w) /\ kindOf e = AlreadyExists
     | None =>
         (forall value, PutState_fails ctx drugID value = None) ->
         fst out = Ok tt /\
         ledger (snd out) =
           <[drugID := json_Marshal
               (mkDrug drugID name "Cipla" batchNumber mfgDate expiryDate composition
                  "Cipla" "InProduction"
                  [historyLine (time_Now_Format (ticks w)) "Created" "Cipla" "-"
                     ("Batch: " +:+ batchNumber)]
                  false [])]> (ledger w) /\
         forall (calls : list (TransactionContext * Invocation))
                (ctx' : TransactionContext)
                (name' batchNumber' mfgDate' expiryDate' composition' : string),
           let w' := invokeAll calls (snd out) in
           let out' := RegisterDrug ctx' drugID name' batchNumber' mfgDate'
                         expiryDate' composition' w' in
           fst out' <> Ok tt /\
           (GetMSPID ctx' = ("CiplaMSP", None) -> GetState_fails ctx' drugID = None ->
              exists e, out' = (Err e, w') /\ kindOf e = AlreadyExists)
     end).
Proof.
  cbv zeta. split.
  - intros Hid. exists ErrOnlyManufacturer. split; [|reflexivity].
    run. destruct (GetMSPID ctx) as [mspID [msg|]]; cbn [notnil orb]; [reflexivity|].
    destruct (String.eqb_spec mspID "CiplaMSP") as [->|Hne]; [congruence|reflexivity].
  - intros Hid Hget.
    destruct (ledger w !! drugID) as [data|] eqn:Hk.
    + exists (ErrAlreadyExists drugID). split; [|reflexivity].
      run. rewrite Hid; cbn. rewrite Hget; cbn. rewrite Hk. reflexivity.
    + intros Hput.
      assert (RegisterDrug ctx drugID name batchNumber mfgDate expiryDate composition w
              = (Ok tt,
                 mkWorld
                   (<[drugID := json_Marshal
                        (mkDrug drugID name "Cipla" batchNumber mfgDate expiryDate
                           composition "Cipla" "InProduction"
                           [historyLine (time_Now_Format (ticks w)) "Created" "Cipla" "-"
                              ("Batch: " +:+ batchNumber)]
                           false [])]> (ledger w))
                   (events w) (S (ticks w)))) as Hrun.
      { run. rewrite Hid; cbn. rewrite Hget; cbn. rewrite Hk, Hput. reflexivity. }
      rewrite Hrun. cbn [fst snd ledger]. split; [reflexivity|]. split; [reflexivity|].
      intros calls ctx' name' batchNumber' mfgDate' expiryDate' composition'.
      cbv zeta.
      set (w' := invokeAll calls _).
      assert (is_Some (ledger w' !! drugID)) as [data' Hk'].
      { apply invokeAll_keeps_key. cbn [ledger]. rewrite lookup_insert_eq. eauto. }
      split.
      * destruct (RegisterDrug_inv ctx' drugID name' batchNumber' mfgDate' expiryDate'
                    composition' w') as [[Hr _]|(_ & Hfresh & _)]; [exact Hr|congruence].
      * intros Hid' Hget'. exists (ErrAlreadyExists drugID). split; [|reflexivity].
        run. rewrite Hid'; cbn. rewrite Hget'; cbn. rewrite Hk'. reflexivity.
Qed.

End Registration.

(** ** Custody transfer *)
Section Custody.
Context `{RT : Runtime}.

(** C1 (as the contract implements it).  [ShipDrug] at an identifier with
    no ledger entry fails with NotFound and changes nothing.  At an entry
    that decodes to a record [d], for a caller whose MSP ID has at least
    three bytes, the gate compares [CurrentOwner d] with the MSP ID without
    its last three bytes: a different owner gets the Unauthorized error and
    the world is left exactly as it was; and when the stub accepts the
    write, the call succeeds if and only if the two strings are equal, and
    then stores the encoding of a record whose owner is the destination,
    whose status is InTransit, whose history is the old one followed by
    exactly one Shipped line (from the old owner, to the destination, empty
    detail), and whose other fields are those of [d]. *)
Theorem ShipDrug_custody_gate (ctx : TransactionContext) (drugID to : string) (w : World) :
  let out := ShipDrug ctx drugID to w in
  (ledger w !! drugID = None -> exists e, out = (Err e, w) /\ kindOf e = NotFound) /\
  (forall (data : list byte) (d : Drug),
     GetState_fails ctx drugID = None -> ledger w !! drugID = Some data ->
     json_Unmarshal data Drug0 = (d, None) ->
     (3 <= len (fst (GetMSPID ctx)))%Z ->
     let role := trimMSP (fst (GetMSPID ctx)) in
     (CurrentOwner d <> role -> exists e, out = (Err e, w) /\ kindOf e = Unauthorized) /\
     ((forall value, PutState_fails ctx drugID value = None) ->
        (fst out = Ok tt <-> CurrentOwner d = role) /\
        (CurrentOwner d = role ->
           exists d' : Drug,
             ledger (snd out) = <[drugID := json_Marshal d']> (ledger w) /\
             CurrentOwner d' = to /\ Status d' = "InTransit" /\
             History d' =
               (History d ++
                [historyLine (time_Now_Format (ticks w)) "Shipped" (CurrentOwner d) to
                   EmptyString])%list /\
             DrugID d' = DrugID d /\ Name d' = Name d /\
             Manufacturer d' = Manufacturer d /\ BatchNumber d' = BatchNumber d /\
             MfgDate d' = MfgDate d /\ ExpiryDate d' = ExpiryDate d /\
             Composition d' = Composition d /\ IsRecalled d' = IsRecalled d /\
             InspectionNotes d' = InspectionNotes d))).
Proof.
  cbv zeta. split.
  - intros Hk. exists (ErrNotFound drugID). split; [|reflexivity].
    apply ShipDrug_not_found. right. exact Hk.
  - intros data d Hget Hk Hdec Hlen. split.
    + intros Hne. exists ErrNotOwner. split; [|reflexivity].
      apply (ShipDrug_not_owner ctx drugID to w data d); assumption.
    + intros Hput.
      destruct (String.eqb_spec (CurrentOwner d) (trimMSP (fst (GetMSPID ctx))))
        as [Heq|Hne].
      * rewrite (ShipDrug_owner ctx drugID to w data d Hget Hk Hdec Hlen Heq).
        rewrite Hput. cbn [fst snd ledger]. split; [tauto|].
        intros _. eexists. split; [reflexivity|].
        cbn. repeat split; reflexivity.
      * rewrite (ShipDrug_not_owner ctx drugID to w data d Hget Hk Hdec Hlen Hne).
        cbn [fst]. split; [|tauto]. split; [discriminate|tauto].
Qed.

(** C10.  The role is cut out of the MSP ID by [mspID[:len(mspID)-3]], which
    is in bounds exactly when the MSP ID has at least three bytes.  Once the
    record is found and decoded, [ShipDrug] panics if and only if the MSP ID
    is shorter than that, with the ledger untouched; in particular a caller
    whose identity did not resolve (empty MSP ID, the error being discarded)
    makes it panic with a bound of -3 instead of returning the Unauthorized
    error. *)
Theorem ShipDrug_panics_on_short_mspid (ctx : TransactionContext) (drugID to : string)
    (w : World) (data : list byte) (d : Drug) :
  GetState_fails ctx drugID = None -> ledger w !! drugID = Some data ->
  json_Unmarshal data Drug0 = (d, None) ->
  let out := ShipDrug ctx drugID to w in
  ((len (fst (GetMSPID ctx)) < 3)%Z <-> exists p, fst out = Panicked p) /\
  ((len (fst (GetMSPID ctx)) < 3)%Z ->
     out = (Panicked (SliceBoundsOutOfRange (len (fst (GetMSPID ctx)) - 3)), w)) /\
  (fst (GetMSPID ctx) = EmptyString ->
     out = (Panicked (SliceBoundsOutOfRange (-3)), w) /\ fst out <> Err ErrNotOwner).
Proof.
  intros Hget Hk Hdec. cbv zeta.
  assert ((len (fst (GetMSPID ctx)) < 3)%Z ->
          ShipDrug ctx drugID to w
          = (Panicked (SliceBoundsOutOfRange (len (fst (GetMSPID ctx)) - 3)), w)) as Hp.
  { intros Hlen. apply (ShipDrug_panics ctx drugID to w data d); assumption. }
  split; [|split].
  - split.
    + intros Hlen. rewrite (Hp Hlen). eauto.
    + intros [p Hpanic]. destruct (Z.lt_ge_cases (len (fst (GetMSPID ctx))) 3) as [|Hlen];
        [assumption|exfalso].
      destruct (String.eqb_spec (CurrentOwner d) (trimMSP (fst (GetMSPID ctx))))
        as [Heq|Hne].
      * rewrite (ShipDrug_owner ctx drugID to w data d Hget Hk Hdec Hlen Heq) in Hpanic.
        destruct (PutState_fails ctx drugID _); discriminate.
      * rewrite (ShipDrug_not_owner ctx drugID to w data d Hget Hk Hdec Hlen Hne) in Hpanic.
        discriminate.
  - exact Hp.
  - intros Hempty.
    assert (len (fst (GetMSPID ctx)) < 3)%Z as Hlen by (rewrite Hempty; reflexivity).
    rewrite (Hp Hlen), Hempty. split; [reflexivity|discriminate].
Qed.

End Custody.

(** ** Recall *)
Section Recall.
Context `{RT : Runtime}.

(** C3.  [RecallDrug] is gated on the regulator identity alone.  Any caller
    other than CDSCOMSP (or an unresolved identity) gets the Unauthorized
    error and nothing changes; the regulator at an identifier without a
    ledger entry gets NotFound and nothing changes.  At an entry that
    decodes to a record [d] (whatever its owner, status and recalled flag),
    with a ledger that can be read and written, the call succeeds if and
    only if the caller is the regulator, and then stores the encoding of a
    record with the recalled flag set, status Recalled, the inspection
    notes of [d] followed by exactly one note, the history of [d] followed
    by exactly one Recalled line (from CDSCO, to "-", detail "Reason:
    <reason>"), and every other field as in [d]. *)
Theorem RecallDrug_regulator_gate (ctx : TransactionContext) (drugID reason : string)
    (w : World) :
  let out := RecallDrug ctx drugID reason w in
  (GetMSPID ctx <> ("CDSCOMSP", None) ->
     exists e, out = (Err e, w) /\ kindOf e = Unauthorized) /\
  (GetMSPID ctx = ("CDSCOMSP", None) -> ledger w !! drugID = None ->
     exists e, out = (Err e, w) /\ kindOf e = NotFound) /\
  (forall (data : list byte) (d : Drug),
     GetState_fails ctx drugID = None -> ledger w !! drugID = Some data ->
     json_Unmarshal data Drug0 = (d, None) ->
     (forall value, PutState_fails ctx drugID value = None) ->
     (fst out = Ok tt <-> GetMSPID ctx = ("CDSCOMSP", None)) /\
     (GetMSPID ctx = ("CDSCOMSP", None) ->
        exists d' : Drug,
          ledger (snd out) = <[drugID := json_Marshal d']> (ledger w) /\
          IsRecalled d' = true /\ Status d' = "Recalled" /\
          InspectionNotes d' =
            (InspectionNotes d ++ [time_Now_Format (ticks w) +:+ ": " +:+ reason])%list /\
          History d' =
            (History d ++
             [historyLine (time_Now_Format (S (ticks w))) "Recalled" "CDSCO" "-"
                ("Reason: " +:+ reason)])%list /\
          DrugID d' = DrugID d /\ Name d' = Name d /\
          Manufacturer d' = Manufacturer d /\ BatchNumber d' = BatchNumber d /\
          MfgDate d' = MfgDate d /\ ExpiryDate d' = ExpiryDate d /\
          Composition d' = Composition d /\ CurrentOwner d' = CurrentOwner d)).
Proof.
  cbv zeta. split; [|split].
  - intros Hid. exists ErrOnlyRegulator. split; [|reflexivity].
    apply RecallDrug_not_regulator. exact Hid.
  - intros Hid Hk. exists (ErrNotFound drugID). split; [|reflexivity].
    apply RecallDrug_not_found; [exact Hid|]. right. exact Hk.
  - intros data d Hget Hk Hdec Hput.
    destruct (decide (GetMSPID ctx = ("CDSCOMSP", None))) as [Hid|Hid].
    + rewrite (RecallDrug_found ctx drugID reason w data d None Hid Hget Hk Hdec).
      rewrite Hput. cbn [fst snd ledger]. split; [tauto|].
      intros _. eexists. split; [reflexivity|].
      cbn. repeat split; reflexivity.
    + rewrite (RecallDrug_not_regulator ctx drugID reason w Hid). cbn [fst].
      split; [|tauto]. split; [discriminate|tauto].
Qed.

End Recall.

(** ** Records over sequences of invocations *)
Section Lifetime.
Context `{RT : Runtime}.

(** A relation between records that holds across each update holds across
    any sequence of invocations. *)
Lemma invokeAll_persisted (R : Drug -> Drug -> Prop) :
  json_roundtrip ->
  (forall d, R d d) ->
  (forall a b c, R a b -> R b c -> R a c) ->
  (forall d to ts,
     R d (set_History
            (History d ++ [ts +:+ "|Shipped|" +:+ CurrentOwner d +:+ "|" +:+ to +:+ "|"])
            (set_Status "InTransit" (set_CurrentOwner to d)))) ->
  (forall d reason ts1 ts2,
     R d (set_History
            (History d ++ [ts2 +:+ "|Recalled|CDSCO|-|Reason: " +:+ reason])
            (set_InspectionNotes
               (InspectionNotes d ++ [ts1 +:+ ": " +:+ reason])
               (set_Status "Recalled" (set_IsRecalled true d))))) ->
  forall (calls : list (TransactionContext * Invocation)) (w : World)
         (drugID : string) (d : Drug),
    persisted w drugID = Some d ->
    exists d', persisted (invokeAll calls w) drugID = Some d' /\ R d d'.
Proof.
  intros RTrip Hrefl Htrans Hship Hrecall.
  induction calls as [|[ctx i] calls IH]; intros w drugID d Hd.
  - exists d. split; [exact Hd|apply Hrefl].
  - cbn [invokeAll fold_left fst snd].
    destruct (invoke_persisted ctx i w drugID d RTrip Hd)
      as [[_ Hd']|[(to & ts & _ & _ & Hd')|(reason & ts1 & ts2 & _ & _ & Hd')]];
      destruct (IH _ _ _ Hd') as (d' & Hd'' & HR); exists d'; (split; [exact Hd''|]).
    + exact HR.
    + eapply Htrans; [apply Hship|exact HR].
    + eapply Htrans; [apply Hrecall|exact HR].
Qed.

(** C4.  The recalled flag only goes from false to true: once the record
    persisted under an identifier has it set, the record persisted there
    after any sequence of invocations (by any callers, succeeding or not)
    still has it set. *)
Theorem recalled_is_monotonic (calls : list (TransactionContext * Invocation))
    (w : World) (drugID : string) (d : Drug) :
  json_roundtrip ->
  persisted w drugID = Some d -> IsRecalled d = true ->
  exists d', persisted (invokeAll calls w) drugID = Some d' /\ IsRecalled d' = true.
Proof.
  intros RTrip Hd Hrec.
  destruct (invokeAll_persisted (fun a b => IsRecalled a = true -> IsRecalled b = true)
              RTrip) with (calls := calls) (w := w) (drugID := drugID) (d := d)
    as (d' & Hd' & HR); auto.
  exists d'. split; [exact Hd'|exact (HR Hrec)].
Qed.

(** C6.  The history is append-only.  Registering a fresh identifier
    persists a history of exactly one line.  For a persisted record, one
    invocation leaves a persisted record whose history is the old one
    followed by exactly one line when the invocation is a successful
    [ShipDrug] or [RecallDrug] on that identifier (the line is part of the
    one record that is written), and is the old history otherwise; across
    any sequence of invocations the old history is a prefix of the new one. *)
Theorem history_is_append_only (w : World) (drugID : string) :
  json_roundtrip ->
  (forall ctx name batchNumber mfgDate expiryDate composition,
     let out := RegisterDrug ctx drugID name batchNumber mfgDate expiryDate composition w in
     fst out = Ok tt ->
     exists d' line, persisted (snd out) drugID = Some d' /\ History d' = [line]) /\
  (forall d, persisted w drugID = Some d ->
     (forall ctx i,
        let out := invoke ctx i w in
        exists d', persisted (snd out) drugID = Some d' /\
          if updates i drugID && succeeded (fst out)
          then exists line, History d' = (History d ++ [line])%list
          else History d' = History d) /\
     (forall calls,
        exists d', persisted (invokeAll calls w) drugID = Some d' /\
          History d `prefix_of` History d')).
Proof.
  intros RTrip. split.
  - intros ctx name batchNumber mfgDate expiryDate composition out Hok.
    destruct (RegisterDrug_inv ctx drugID name batchNumber mfgDate expiryDate composition w)
      as [[Hr _]|(_ & _ & Hl)]; [contradiction|].
    eexists _, _. split; [apply (persisted_insert w _ _ _ RTrip Hl)|reflexivity].
  - intros d Hd. split.
    + intros ctx i out.
      destruct (invoke_persisted ctx i w drugID d RTrip Hd)
        as [[Hsame Hd']|[(to & ts & -> & Hr & Hd')|(reason & ts1 & ts2 & -> & Hr & Hd')]];
        eexists; (split; [exact Hd'|]); fold out.
      * fold out in Hsame. rewrite Hsame. reflexivity.
      * fold out in Hr. rewrite Hr. cbn [updates succeeded]. rewrite String.eqb_refl.
        cbn [andb]. eauto.
      * fold out in Hr. rewrite Hr. cbn [updates succeeded]. rewrite String.eqb_refl.
        cbn [andb]. eauto.
    + intros calls.
      apply (invokeAll_persisted (fun a b => History a `prefix_of` History b) RTrip);
        [reflexivity|intros a b c; apply transitivity|..|exact Hd].
      * intros a to ts. cbn. apply prefix_app_r. reflexivity.
      * intros a reason ts1 ts2. cbn. apply prefix_app_r. reflexivity.
Qed.

(** C9.  The creation-time fields never change: after any sequence of
    invocations the record persisted under an identifier has the drug ID,
    name, manufacturer, batch number, manufacture date, expiry date and
    composition it had before. *)
Theorem creation_fields_are_immutable (calls : list (TransactionContext * Invocation))
    (w : World) (drugID : string) (d : Drug) :
  json_roundtrip ->
  persisted w drugID = Some d ->
  exists d', persisted (invokeAll calls w) drugID = Some d' /\
    DrugID d' = DrugID d /\ Name d' = Name d /\ Manufacturer d' = Manufacturer d /\
    BatchNumber d' = BatchNumber d /\ MfgDate d' = MfgDate d /\
    ExpiryDate d' = ExpiryDate d /\ Composition d' = Composition d.
Proof.
  intros RTrip Hd.
  apply (invokeAll_persisted
           (fun a b => DrugID b = DrugID a /\ Name b = Name a /\
                       Manufacturer b = Manufacturer a /\ BatchNumber b = BatchNumber a /\
                       MfgDate b = MfgDate a /\ ExpiryDate b = ExpiryDate a /\
                       Composition b = Composition a) RTrip);
    [tauto| |cbn; tauto|cbn; tauto|exact Hd].
  intros a b c (?&?&?&?&?&?&?) (?&?&?&?&?&?&?). repeat split; congruence.
Qed.

End Lifetime.

(** ** Recalled batches, decoding errors and events *)
Section Policy.
Context `{RT : Runtime}.



(** C8 (as the contract implements it).  A successful [ShipDrug] has set
    exactly one more event, named DrugShipped, and a successful
    [RecallDrug] exactly one more, named DrugRecalled, both with the drug ID
    as payload.  When the stub accepts writes, a call that does not succeed
    (not found, not authorized, decoding error, panic) sets no event. *)
Theorem events_of_ShipDrug_and_RecallDrug (ctx : TransactionContext)
    (drugID to reason : string) (w : World) :
  let ship := ShipDrug ctx drugID to w in
  let recall := RecallDrug ctx drugID reason w in
  (fst ship = Ok tt ->
     events (snd ship) = (events w ++ [("DrugShipped", bytes_of drugID)])%list) /\
  (fst recall = Ok tt ->
     events (snd recall) = (events w ++ [("DrugRecalled", bytes_of drugID)])%list) /\
  ((forall value, PutState_fails ctx drugID value = None) ->
     (fst ship <> Ok tt -> events (snd ship) = events w) /\
     (fst recall <> Ok tt -> events (snd recall) = events w)).
Proof.
  cbv zeta. split; [|split; [|intros Hput; split]].
  - run. cases; done.
  - run. cases; done.
  - run. cases; try done; rewrite Hput in *; discriminate.
  - run. cases; try done; rewrite Hput in *; discriminate.
Qed.

(** [RecallDrug] does not look at the decoding error: whatever
    [json.Unmarshal] left in the destination is updated and written, where
    [ShipDrug] returns the error and writes nothing. *)
Lemma RecallDrug_ignores_decode_error (ctx ctx' : TransactionContext)
    (drugID reason to : string) (w : World) (data : list byte) (d : Drug) (msg : string) :
  GetMSPID ctx = ("CDSCOMSP", None) ->
  GetState_fails ctx drugID = None -> GetState_fails ctx' drugID = None ->
  ledger w !! drugID = Some data ->
  json_Unmarshal data Drug0 = (d, Some msg) ->
  (forall value, PutState_fails ctx drugID value = None) ->
  ShipDrug ctx' drugID to w = (Err (ErrJSON msg), w) /\
  fst (RecallDrug ctx drugID reason w) = Ok tt /\
  ledger (snd (RecallDrug ctx drugID reason w)) =
    <[drugID := json_Marshal
        (set_History
           (History d ++ [time_Now_Format (S (ticks w)) +:+
                          "|Recalled|CDSCO|-|Reason: " +:+ reason])
           (set_InspectionNotes
              (InspectionNotes d ++ [time_Now_Format (ticks w) +:+ ": " +:+ reason])
              (set_Status "Recalled" (set_IsRecalled true d))))]> (ledger w).
Proof.
  intros Hid Hget Hget' Hk Hdec Hput. split.
  - apply (ShipDrug_decode_error ctx' drugID to w data d msg); assumption.
  - rewrite (RecallDrug_found ctx drugID reason w data d _ Hid Hget Hk Hdec).
    rewrite Hput. split; reflexivity.
Qed.

End Policy.

(** ** The theorems on concrete ledgers *)
Section Examples.
Import Scenario.
#[local] Existing Instance Ref.runtime.

Lemma w1_entry : ledger w1 !! "DRUG-1" = Some (json_Marshal d1).
Proof. vm_compute. reflexivity. Qed.


Lemma w1_persisted : persisted w1 "DRUG-1" = Some d1.
Proof. vm_compute. reflexivity. Qed.

Lemma w2_persisted : persisted w2 "DRUG-1" = Some d2.
Proof. vm_compute. reflexivity. Qed.

(** Cipla registers DRUG-1 on the empty ledger, and cannot register it a
    second time. *)
Lemma RegisterDrug_exactly_once_witness :
  GetMSPID cipla = ("CiplaMSP", None) /\ GetState_fails cipla "DRUG-1" = None /\
  ledger w0 !! "DRUG-1" = None /\
  ledger w1 = {[ "DRUG-1" := json_Marshal d1 ]} /\
  exists e, RegisterDrug cipla "DRUG-1" "Placebo" "B200" "2025-01-01" "2027-01-01"
              "Sugar" w1 = (Err e, w1) /\ kindOf e = AlreadyExists.
Proof.
  split; [reflexivity|]. split; [reflexivity|]. split; [reflexivity|].
  pose proof (RegisterDrug_exactly_once cipla "DRUG-1" "ParacetamolX" "B100"
                "2024-01-01" "2026-01-01" "Paracetamol 500mg" w0) as [_ H].
  specialize (H eq_refl eq_refl).
  change (ledger w0 !! "DRUG-1") with (@None (list byte)) in H.
  destruct (H (fun _ => eq_refl)) as (_ & Hl & Hagain).
  split.
  - rewrite <- insert_empty. exact Hl.
  - exact (proj2 (Hagain [] cipla "Placebo" "B200" "2025-01-01" "2027-01-01" "Sugar")
             eq_refl eq_refl).
Defined.

(** Cipla, the owner of DRUG-1 in [w1], ships it. *)
Lemma ShipDrug_custody_gate_witness :
  GetState_fails cipla "DRUG-1" = None /\
  ledger w1 !! "DRUG-1" = Some (json_Marshal d1) /\
  json_Unmarshal (json_Marshal d1) Drug0 = (d1, None) /\
  (3 <= len (fst (GetMSPID cipla)))%Z /\
  CurrentOwner d1 = trimMSP (fst (GetMSPID cipla)) /\
  fst (ShipDrug cipla "DRUG-1" "DistributorA" w1) = Ok tt.
Proof.
  assert (3 <= len (fst (GetMSPID cipla)))%Z as Hlen by (vm_compute; discriminate).
  split; [reflexivity|]. split; [exact w1_entry|].
  split; [exact (RefFacts.roundtrip d1)|]. split; [exact Hlen|]. split; [reflexivity|].
  pose proof (ShipDrug_custody_gate cipla "DRUG-1" "DistributorA" w1) as [_ H].
  destruct (H (json_Marshal d1) d1 eq_refl w1_entry (RefFacts.roundtrip d1) Hlen)
    as [_ Hgate].
  destruct (Hgate (fun _ => eq_refl)) as [Hiff _].
  apply Hiff. reflexivity.
Defined.

(** C1, counterexample.  In [w1] the owner of DRUG-1 is "Cipla".  The caller
    whose resolved identity is "CiplaMSP", a different string, ships it
    successfully, and so does the caller "CiplaXYZ", whom [RegisterDrug]
    does not take for the manufacturer; and the caller whose identity did
    not resolve is not answered with the Unauthorized error: the call
    panics. *)
Lemma ShipDrug_gate_is_not_exact_equality :
  persisted w1 "DRUG-1" = Some d1 /\ CurrentOwner d1 = "Cipla" /\
  fst (GetMSPID cipla) = "CiplaMSP" /\
  ~ (fst (ShipDrug cipla "DRUG-1" "DistributorA" w1) = Ok tt
     <-> fst (GetMSPID cipla) = CurrentOwner d1) /\
  fst (RegisterDrug (caller "CiplaXYZ") "DRUG-2" "Placebo" "B200" "2025-01-01"
         "2027-01-01" "Sugar" w1) = Err ErrOnlyManufacturer /\
  fst (ShipDrug (caller "CiplaXYZ") "DRUG-1" "DistributorA" w1) = Ok tt /\
  fst (GetMSPID anonymous) <> CurrentOwner d1 /\
  fst (ShipDrug anonymous "DRUG-1" "DistributorA" w1)
  = Panicked (SliceBoundsOutOfRange (-3)).
Proof.
  split; [exact w1_persisted|]. split; [reflexivity|]. split; [reflexivity|].
  split; [|repeat split; solve [discriminate|vm_compute; reflexivity]].
  intros [Hsucc _].
  assert (fst (ShipDrug cipla "DRUG-1" "DistributorA" w1) = Ok tt) as Hok
    by (vm_compute; reflexivity).
  specialize (Hsucc Hok). discriminate.
Qed.

(** The caller whose identity did not resolve makes [ShipDrug] panic. *)
Lemma ShipDrug_panics_on_short_mspid_witness :
  GetState_fails anonymous "DRUG-1" = None /\
  ledger w1 !! "DRUG-1" = Some (json_Marshal d1) /\
  json_Unmarshal (json_Marshal d1) Drug0 = (d1, None) /\
  fst (GetMSPID anonymous) = EmptyString /\
  ShipDrug anonymous "DRUG-1" "DistributorA" w1
  = (Panicked (SliceBoundsOutOfRange (-3)), w1).
Proof.
  split; [reflexivity|]. split; [exact w1_entry|].
  split; [exact (RefFacts.roundtrip d1)|]. split; [reflexivity|].
  destruct (ShipDrug_panics_on_short_mspid anonymous "DRUG-1" "DistributorA" w1
              (json_Marshal d1) d1 eq_refl w1_entry (RefFacts.roundtrip d1))
    as (_ & _ & H).
  exact (proj1 (H eq_refl)).
Defined.

(** CDSCO recalls DRUG-1 while Cipla owns it. *)
Lemma RecallDrug_regulator_gate_witness :
  GetMSPID cdsco = ("CDSCOMSP", None) /\
  GetState_fails cdsco "DRUG-1" = None /\
  ledger w1 !! "DRUG-1" = Some (json_Marshal d1) /\
  json_Unmarshal (json_Marshal d1) Drug0 = (d1, None) /\
  fst (RecallDrug cdsco "DRUG-1" "contamination" w1) = Ok tt.
Proof.
  split; [reflexivity|]. split; [reflexivity|]. split; [exact w1_entry|].
  split; [exact (RefFacts.roundtrip d1)|].
  destruct (RecallDrug_regulator_gate cdsco "DRUG-1" "contamination" w1) as (_ & _ & H).
  destruct (H (json_Marshal d1) d1 eq_refl w1_entry (RefFacts.roundtrip d1)
              (fun _ => eq_refl)) as [Hiff _].
  apply Hiff. reflexivity.
Defined.

(** The recalled flag of DRUG-1 survives a shipment, a second registration,
    a refused and an accepted recall, and a read. *)
Lemma recalled_is_monotonic_witness :
  persisted w2 "DRUG-1" = Some d2 /\ IsRecalled d2 = true /\
  exists d', persisted (invokeAll later w2) "DRUG-1" = Some d' /\ IsRecalled d' = true.
Proof.
  split; [exact w2_persisted|]. split; [reflexivity|].
  exact (recalled_is_monotonic later w2 "DRUG-1" d2 RefFacts.roundtrip
           w2_persisted eq_refl).
Defined.

(** The history of DRUG-1 in [w1] is a prefix of its history after a recall
    and what follows. *)
Lemma history_is_append_only_witness :
  persisted w1 "DRUG-1" = Some d1 /\
  exists d', persisted (invokeAll ((cdsco, InvRecallDrug "DRUG-1" "contamination") :: later)
                          w1) "DRUG-1" = Some d' /\
             History d1 `prefix_of` History d'.
Proof.
  split; [exact w1_persisted|].
  destruct (history_is_append_only w1 "DRUG-1" RefFacts.roundtrip) as [_ H].
  destruct (H d1 w1_persisted) as [_ Hall].
  exact (Hall ((cdsco, InvRecallDrug "DRUG-1" "contamination") :: later)).
Defined.

(** The creation-time fields of DRUG-1 survive the same invocations. *)
Lemma creation_fields_are_immutable_witness :
  persisted w2 "DRUG-1" = Some d2 /\
  exists d', persisted (invokeAll later w2) "DRUG-1" = Some d' /\
    DrugID d' = "DRUG-1" /\ Name d' = "ParacetamolX" /\ Manufacturer d' = "Cipla" /\
    BatchNumber d' = "B100" /\ MfgDate d' = "2024-01-01" /\
    ExpiryDate d' = "2026-01-01" /\ Composition d' = "Paracetamol 500mg".
Proof.
  split; [exact w2_persisted|].
  exact (creation_fields_are_immutable later w2 "DRUG-1" d2 RefFacts.roundtrip
           w2_persisted).
Defined.



(** The events of a shipment and of a recall of DRUG-1. *)
Lemma events_of_ShipDrug_and_RecallDrug_witness :
  fst (ShipDrug cipla "DRUG-1" "DistributorA" w1) = Ok tt /\
  events (snd (ShipDrug cipla "DRUG-1" "DistributorA" w1))
  = [("DrugShipped", bytes_of "DRUG-1")] /\
  (forall value, PutState_fails medlife "DRUG-1" value = None) /\
  fst (RecallDrug medlife "DRUG-1" "none" w1) <> Ok tt /\
  events (snd (RecallDrug medlife "DRUG-1" "none" w1)) = [].
Proof.
  assert (fst (ShipDrug cipla "DRUG-1" "DistributorA" w1) = Ok tt) as Hok
    by (vm_compute; reflexivity).
  assert (fst (RecallDrug medlife "DRUG-1" "none" w1) <> Ok tt) as Hno
    by (vm_compute; discriminate).
  split; [exact Hok|]. split.
  - exact (proj1 (events_of_ShipDrug_and_RecallDrug cipla "DRUG-1" "DistributorA"
                    "none" w1) Hok).
  - split; [reflexivity|]. split; [exact Hno|].
    destruct (events_of_ShipDrug_and_RecallDrug medlife "DRUG-1" "DistributorA"
                "none" w1) as (_ & _ & H).
    exact (proj2 (H (fun _ => eq_refl)) Hno).
Defined.

(** C8, counterexample.  The successful shipment and the successful recall
    of DRUG-1 set events, and none of them is named CustodyTransferred or
    BatchRecalled. *)
Lemma events_are_not_named_as_specified :
  let ship := ShipDrug cipla "DRUG-1" "DistributorA" w1 in
  let recall := RecallDrug cdsco "DRUG-1" "contamination" w1 in
  fst ship = Ok tt /\ fst recall = Ok tt /\
  ~ In "CustodyTransferred" (map fst (events (snd ship))) /\
  ~ In "BatchRecalled" (map fst (events (snd recall))).
Proof.
  vm_compute. repeat split; try reflexivity; intros [H|[]]; discriminate.
Qed.

(** C7.  The entry of DRUG-1 in [wbad] is not a JSON document: decoding
    fails and leaves the zero record.  [ShipDrug] returns the error and
    writes nothing, but [RecallDrug] succeeds and persists a record built
    from the zero values. *)
Theorem RecallDrug_persists_undecoded_record :
  let out := RecallDrug cdsco "DRUG-1" "contamination" wbad in
  ledger wbad !! "DRUG-1" = Some (bytes_of "oops") /\
  json_Unmarshal (bytes_of "oops") Drug0
  = (Drug0, Some "invalid character looking for beginning of value") /\
  ShipDrug cipla "DRUG-1" "DistributorA" wbad
  = (Err (ErrJSON "invalid character looking for beginning of value"), wbad) /\
  fst out = Ok tt /\
  persisted (snd out) "DRUG-1"
  = Some (mkDrug EmptyString EmptyString EmptyString EmptyString EmptyString
            EmptyString EmptyString EmptyString "Recalled"
            ["2024-03-01 12:00:01|Recalled|CDSCO|-|Reason: contamination"]
            true ["2024-03-01 12:00:00: contamination"]).
Proof. vm_compute. repeat split; reflexivity. Qed.

End Examples.


(** ** Reading, and what a call leaves alone *)
Section Frame.
Context `{RT : Runtime}.

Lemma invoke_TrackDrug (ctx : TransactionContext) (drugID : string) (w : World) :
  snd (invoke ctx (InvTrackDrug drugID) w) = w.
Proof. cbn [invoke]. run. cases. Qed.

(** The ledger after an invocation is the ledger before, or the ledger
    before with one value written under the drug ID the invocation names,
    and the latter only when the invocation succeeds. *)
Lemma invoke_ledger (ctx : TransactionContext) (i : Invocation) (w : World) :
  let out := invoke ctx i w in
  ledger (snd out) = ledger w
  \/ (fst out = Ok tt /\ exists data, ledger (snd out) = <[target i := data]> (ledger w)).
Proof.
  destruct i as [k name batchNumber mfgDate expiryDate composition|k to|k reason|k];
    cbn [target]; cbv zeta.
  - cbn [invoke].
    destruct (RegisterDrug_inv ctx k name batchNumber mfgDate expiryDate composition w)
      as [[_ Hl]|(Hr & _ & Hl)]; eauto.
  - cbn [invoke].
    destruct (ShipDrug_inv ctx k to w) as [[_ Hl]|(Hr & data & d & _ & _ & Hl)]; eauto.
  - cbn [invoke].
    destruct (RecallDrug_inv ctx k reason w) as [[_ Hl]|(Hr & data & d & e & _ & _ & Hl)];
      eauto.
  - left. rewrite invoke_TrackDrug. reflexivity.
Qed.

(** X1.  A persisted record can be read back by any caller, whatever its
    identity: when the stub answers, [TrackDrug] returns a document whose
    bytes decode to that record, and leaves the world as it found it. *)
Theorem TrackDrug_returns_the_persisted_record (ctx : TransactionContext)
    (drugID : string) (w : World) (d : Drug) :
  GetState_fails ctx drugID = None ->
  persisted w drugID = Some d ->
  exists doc, TrackDrug ctx drugID w = (Ok doc, w) /\
              json_Unmarshal (bytes_of doc) Drug0 = (d, None).
Proof.
  intros Hget (data & Hk & Hdec)%persisted_Some.
  exists (string_of data). split.
  - run. rewrite Hget; cbn. rewrite Hk. reflexivity.
  - unfold bytes_of, string_of. rewrite list_byte_of_string_of_list_byte. exact Hdec.
Qed.

(** X2.  An invocation touches no entry but the one under the drug ID it
    names: every other key of the ledger keeps its bytes, whatever the
    function, the caller and the result. *)
Theorem invoke_leaves_other_keys (ctx : TransactionContext) (i : Invocation)
    (w : World) (key : string) :
  key <> target i ->
  ledger (snd (invoke ctx i w)) !! key = ledger w !! key.
Proof.
  intros Hne. destruct (invoke_ledger ctx i w) as [Hl|(_ & data & Hl)]; rewrite Hl.
  - reflexivity.
  - apply lookup_insert_ne. congruence.
Qed.

(** X3.  An invocation that does not succeed (an error of any kind, or a
    panic) leaves the whole ledger as it was. *)
Theorem failed_invocation_writes_nothing (ctx : TransactionContext) (i : Invocation)
    (w : World) :
  fst (invoke ctx i w) <> Ok tt -> ledger (snd (invoke ctx i w)) = ledger w.
Proof.
  intros Hfail.
  destruct (invoke_ledger ctx i w) as [Hl|(Hr & _)]; [exact Hl|contradiction].
Qed.

(** X4.  Entries are never deleted, and only a successful [RegisterDrug] by
    the manufacturer creates one: a key that has an entry keeps one, and a
    key without entry has one afterwards only if the invocation was a
    [RegisterDrug] of that drug ID by CiplaMSP that succeeded. *)
Theorem entries_come_from_RegisterDrug (ctx : TransactionContext) (i : Invocation)
    (w : World) (key : string) :
  let out := invoke ctx i w in
  (is_Some (ledger w !! key) -> is_Some (ledger (snd out) !! key)) /\
  (ledger w !! key = None -> is_Some (ledger (snd out) !! key) ->
     fst out = Ok tt /\ GetMSPID ctx = ("CiplaMSP", None) /\
     exists name batchNumber mfgDate expiryDate composition,
       i = InvRegisterDrug key name batchNumber mfgDate expiryDate composition).
Proof.
  cbv zeta. split; [apply invoke_keeps_key|].
  intros Hnone Hsome.
  destruct i as [k name batchNumber mfgDate expiryDate composition|k to|k reason|k];
    [cbn [invoke] in *..|].
  - destruct (RegisterDrug_inv ctx k name batchNumber mfgDate expiryDate composition w)
      as [[_ Hl]|(Hr & _ & Hl)]; rewrite Hl in Hsome.
    + rewrite Hnone in Hsome. destruct Hsome; discriminate.
    + destruct (decide (k = key)) as [->|Hne].
      * split; [exact Hr|]. split; [|eauto 10].
        revert Hr. run. destruct (GetMSPID ctx) as [mspID [msg|]]; cbn; [discriminate|].
        destruct (String.eqb_spec mspID "CiplaMSP") as [->|]; cbn; [reflexivity|discriminate].
      * rewrite lookup_insert_ne, Hnone in Hsome by exact Hne.
        destruct Hsome; discriminate.
  - destruct (ShipDrug_inv ctx k to w) as [[_ Hl]|(_ & data & d & Hk & _ & Hl)];
      rewrite Hl in Hsome; [rewrite Hnone in Hsome; destruct Hsome; discriminate|].
    destruct (decide (k = key)) as [->|Hne]; [congruence|].
    rewrite lookup_insert_ne, Hnone in Hsome by exact Hne. destruct Hsome; discriminate.
  - destruct (RecallDrug_inv ctx k reason w) as [[_ Hl]|(_ & data & d & e & Hk & _ & Hl)];
      rewrite Hl in Hsome; [rewrite Hnone in Hsome; destruct Hsome; discriminate|].
    destruct (decide (k = key)) as [->|Hne]; [congruence|].
    rewrite lookup_insert_ne, Hnone in Hsome by exact Hne. destruct Hsome; discriminate.
  - rewrite invoke_TrackDrug, Hnone in Hsome. destruct Hsome; discriminate.
Qed.

(** X5.  A record that is persisted stays exactly as it is, field by field,
    through every invocation that is not a successful [ShipDrug] or
    [RecallDrug] on its own drug ID: calls on other drug IDs, reads,
    registrations, and calls that fail. *)
Theorem persisted_record_changed_only_by_update (ctx : TransactionContext)
    (i : Invocation) (w : World) (drugID : string) (d : Drug) :
  json_roundtrip ->
  persisted w drugID = Some d ->
  updates i drugID && succeeded (fst (invoke ctx i w)) = false ->
  persisted (snd (invoke ctx i w)) drugID = Some d.
Proof.
  intros RTrip Hd Hnot.
  destruct (invoke_persisted ctx i w drugID d RTrip Hd)
    as [[_ Hd']|[(to & ts & -> & Hr & _)|(reason & ts1 & ts2 & -> & Hr & _)]].
  - exact Hd'.
  - rewrite Hr in Hnot. cbn [updates succeeded] in Hnot.
    rewrite String.eqb_refl in Hnot. discriminate.
  - rewrite Hr in Hnot. cbn [updates succeeded] in Hnot.
    rewrite String.eqb_refl in Hnot. discriminate.
Qed.

End Frame.

(** ** Failures of the collaborators *)
Section Collaborators.
Context `{RT : Runtime}.

(** X6.  When the stub cannot read the key, [RegisterDrug] (called by the
    manufacturer) hands the stub's error up as it is, while [ShipDrug],
    [RecallDrug] (called by the regulator) and [TrackDrug] report the drug as
    not found; none of them changes the world. *)
Theorem GetState_failure_is_reported (ctx : TransactionContext) (drugID : string)
    (msg : string) (w : World) :
  GetState_fails ctx drugID = Some msg ->
  (forall name batchNumber mfgDate expiryDate composition,
     GetMSPID ctx = ("CiplaMSP", None) ->
     RegisterDrug ctx drugID name batchNumber mfgDate expiryDate composition w
     = (Err (ErrStub msg), w)) /\
  (forall to, ShipDrug ctx drugID to w = (Err (ErrNotFound drugID), w)) /\
  (forall reason, GetMSPID ctx = ("CDSCOMSP", None) ->
     RecallDrug ctx drugID reason w = (Err (ErrNotFound drugID), w)) /\
  TrackDrug ctx drugID w = (Err (ErrNotFound drugID), w).
Proof.
  intros Hget. split; [|split; [|split]].
  - intros name batchNumber mfgDate expiryDate composition Hid.
    run. rewrite Hid; cbn. rewrite Hget. reflexivity.
  - intros to. apply ShipDrug_not_found. left. congruence.
  - intros reason Hid. apply RecallDrug_not_found; [exact Hid|]. left. congruence.
  - run. rewrite Hget. reflexivity.
Qed.

(** X7.  When the stub refuses the write, the three writing functions
    return the stub's error as it is and the ledger is unchanged; but
    [ShipDrug] and [RecallDrug] have by then set their event, which
    [RegisterDrug] has not. *)
Theorem PutState_failure_is_reported (ctx : TransactionContext) (drugID : string)
    (msg : string) (w : World) :
  GetState_fails ctx drugID = None ->
  (forall value, PutState_fails ctx drugID value = Some msg) ->
  (forall name batchNumber mfgDate expiryDate composition,
     GetMSPID ctx = ("CiplaMSP", None) -> ledger w !! drugID = None ->
     let out := RegisterDrug ctx drugID name batchNumber mfgDate expiryDate composition w in
     fst out = Err (ErrStub msg) /\ ledger (snd out) = ledger w /\
     events (snd out) = events w) /\
  (forall to data d,
     ledger w !! drugID = Some data -> json_Unmarshal data Drug0 = (d, None) ->
     (3 <= len (fst (GetMSPID ctx)))%Z ->
     CurrentOwner d = trimMSP (fst (GetMSPID ctx)) ->
     let out := ShipDrug ctx drugID to w in
     fst out = Err (ErrStub msg) /\ ledger (snd out) = ledger w /\
     events (snd out) = (events w ++ [("DrugShipped", bytes_of drugID)])%list) /\
  (forall reason data d e,
     GetMSPID ctx = ("CDSCOMSP", None) ->
     ledger w !! drugID = Some data -> json_Unmarshal data Drug0 = (d, e) ->
     let out := RecallDrug ctx drugID reason w in
     fst out = Err (ErrStub msg) /\ ledger (snd out) = ledger w /\
     events (snd out) = (events w ++ [("DrugRecalled", bytes_of drugID)])%list).
Proof.
  intros Hget Hput. split; [|split].
  - intros name batchNumber mfgDate expiryDate composition Hid Hk. cbv zeta.
    run. rewrite Hid; cbn. rewrite Hget; cbn. rewrite Hk, Hput. repeat split.
  - intros to data d Hk Hdec Hlen Hown. cbv zeta.
    rewrite (ShipDrug_owner ctx drugID to w data d Hget Hk Hdec Hlen Hown), Hput.
    repeat split.
  - intros reason data d e Hid Hk Hdec. cbv zeta.
    rewrite (RecallDrug_found ctx drugID reason w data d e Hid Hget Hk Hdec), Hput.
    repeat split.
Qed.

(** X8.  [ShipDrug] drops the error of the identity lookup and goes by the
    MSP ID string alone: the same call with any identity error behaves the
    same.  [RegisterDrug] and [RecallDrug] do look at it: with an identity
    error they refuse even the right MSP ID. *)
Theorem identity_error_is_dropped_by_ShipDrug_only (ctx : TransactionContext)
    (err : option string) (drugID : string) (w : World) :
  let ctx' := mkCtx (fst (GetMSPID ctx), err) (GetState_fails ctx) (PutState_fails ctx) in
  (forall to, ShipDrug ctx' drugID to w = ShipDrug ctx drugID to w) /\
  (err <> None ->
     (forall name batchNumber mfgDate expiryDate composition,
        RegisterDrug ctx' drugID name batchNumber mfgDate expiryDate composition w
        = (Err ErrOnlyManufacturer, w)) /\
     (forall reason, RecallDrug ctx' drugID reason w = (Err ErrOnlyRegulator, w))).
Proof.
  cbv zeta. split.
  - intros to. unfold ShipDrug, GetState, getMSPID, PutState, SetEvent.
    cbn [GetMSPID GetState_fails PutState_fails].
    destruct (GetMSPID ctx) as [mspID e]. reflexivity.
  - intros Herr. destruct err as [msg|]; [|congruence]. split.
    + intros. run. reflexivity.
    + intros. apply RecallDrug_not_regulator. cbn. congruence.
Qed.

Lemma length_append (a b : string) :
  String.length (a +:+ b) = String.length a + String.length b.
Proof.
  induction a as [|c a IH]; [reflexivity|].
  change (S (String.length (a +:+ b)) = S (String.length a + String.length b)).
  rewrite IH. reflexivity.
Qed.

Lemma substring_append (a b : string) :
  String.substring 0 (String.length a) (a +:+ b) = a.
Proof.
  induction a as [|c a IH].
  - destruct b; reflexivity.
  - change (String c (String.substring 0 (String.length a) (a +:+ b)) = String c a).
    rewrite IH. reflexivity.
Qed.

Lemma trimMSP_append (name suffix : string) :
  String.length suffix = 3 ->
  (3 <= len (name +:+ suffix))%Z /\ trimMSP (name +:+ suffix) = name.
Proof.
  intros Hs. unfold trimMSP, len. rewrite length_append, Hs. split; [lia|].
  replace (Z.to_nat (Z.of_nat (String.length name + 3) - 3)) with (String.length name)
    by lia.
  apply substring_append.
Qed.

(** X9.  The three bytes that [ShipDrug] cuts off the MSP ID are not looked
    at: a caller whose MSP ID is the owner's name followed by any three
    bytes ships the record (when the ledger can be read and written), and
    one whose MSP ID is some other name followed by three bytes is refused
    as not being the owner. *)
Theorem ShipDrug_accepts_any_three_byte_suffix (ctx : TransactionContext)
    (drugID to name suffix : string) (w : World) (data : list byte) (d : Drug) :
  GetState_fails ctx drugID = None -> ledger w !! drugID = Some data ->
  json_Unmarshal data Drug0 = (d, None) ->
  (forall value, PutState_fails ctx drugID value = None) ->
  fst (GetMSPID ctx) = name +:+ suffix -> String.length suffix = 3 ->
  (name = CurrentOwner d -> fst (ShipDrug ctx drugID to w) = Ok tt) /\
  (name <> CurrentOwner d -> ShipDrug ctx drugID to w = (Err ErrNotOwner, w)).
Proof.
  intros Hget Hk Hdec Hput Hid Hs.
  destruct (trimMSP_append name suffix Hs) as [Hlen Htrim]. rewrite <- Hid in Hlen, Htrim.
  split; intros Hname.
  - rewrite (ShipDrug_owner ctx drugID to w data d Hget Hk Hdec Hlen) by congruence.
    rewrite Hput. reflexivity.
  - apply (ShipDrug_not_owner ctx drugID to w data d); [assumption..|congruence].
Qed.

End Collaborators.

(** ** Custody and notes over time *)
Section Handover.
Context `{RT : Runtime}.

(** X10.  Custody moves with the shipment.  Take an entry that decodes to a
    record, a [ShipDrug] to a destination that succeeds on it, and suppose
    the record this writes survives the codec.  Then a further [ShipDrug] of
    that drug (by a caller with an MSP ID of at least three bytes, the
    ledger being readable and writable) succeeds if and only if the caller's
    MSP ID without its last three bytes is that destination; any other such
    caller, the sender included unless it shipped to its own name, gets the
    not-owner error. *)
Theorem custody_moves_with_the_shipment (ctx ctx' : TransactionContext)
    (drugID to to' : string) (w : World) (data : list byte) (d : Drug) :
  ledger w !! drugID = Some data -> json_Unmarshal data Drug0 = (d, None) ->
  fst (ShipDrug ctx drugID to w) = Ok tt ->
  reads_back
    (set_History
       (History d ++
        [historyLine (time_Now_Format (ticks w)) "Shipped" (CurrentOwner d) to EmptyString])
       (set_Status "InTransit" (set_CurrentOwner to d))) ->
  GetState_fails ctx' drugID = None ->
  (forall value, PutState_fails ctx' drugID value = None) ->
  (3 <= len (fst (GetMSPID ctx')))%Z ->
  let w' := snd (ShipDrug ctx drugID to w) in
  (fst (ShipDrug ctx' drugID to' w') = Ok tt <-> trimMSP (fst (GetMSPID ctx')) = to) /\
  (trimMSP (fst (GetMSPID ctx')) <> to ->
     ShipDrug ctx' drugID to' w' = (Err ErrNotOwner, w')).
Proof.
  intros Hdata Hdec Hok Hback Hget Hput Hlen w'.
  destruct (ShipDrug_inv ctx drugID to w) as [[Hr _]|(_ & data0 & d0 & Hk0 & Hdec0 & Hl)];
    [contradiction|].
  assert (d0 = d) as -> by congruence.
  fold w' in Hl.
  set (d' := set_History _ _) in Hl.
  assert (ledger w' !! drugID = Some (json_Marshal d')) as Hk
    by (rewrite Hl; apply lookup_insert_eq).
  assert (json_Unmarshal (json_Marshal d') Drug0 = (d', None)) as Hdec' by exact Hback.
  assert (CurrentOwner d' = to) as Hown by reflexivity.
  destruct (decide (trimMSP (fst (GetMSPID ctx')) = to)) as [Heq|Hne].
  - split; [|congruence].
    rewrite (ShipDrug_owner ctx' drugID to' w' _ d' Hget Hk Hdec' Hlen) by congruence.
    rewrite Hput. tauto.
  - assert (ShipDrug ctx' drugID to' w' = (Err ErrNotOwner, w')) as Hrun
      by (apply (ShipDrug_not_owner ctx' drugID to' w' _ d' Hget Hk Hdec' Hlen);
          congruence).
    split; [|intros _; exact Hrun].
    rewrite Hrun. split; [discriminate|contradiction].
Qed.

(** X11.  The inspection notes are append-only and written by recalls
    alone.  For a persisted record, one invocation leaves a persisted record
    whose notes are the old ones followed by exactly one note when it is a
    successful [RecallDrug] on that drug ID, and the old notes otherwise;
    across any sequence of invocations the old notes are a prefix of the new
    ones. *)
Theorem notes_are_written_by_recalls_only (w : World) (drugID : string) (d : Drug) :
  json_roundtrip ->
  persisted w drugID = Some d ->
  (forall ctx i,
     let out := invoke ctx i w in
     exists d', persisted (snd out) drugID = Some d' /\
       match i with
       | InvRecallDrug k _ =>
           if String.eqb k drugID && succeeded (fst out)
           then exists note, InspectionNotes d' = (InspectionNotes d ++ [note])%list
           else InspectionNotes d' = InspectionNotes d
       | _ => InspectionNotes d' = InspectionNotes d
       end) /\
  (forall calls,
     exists d', persisted (invokeAll calls w) drugID = Some d' /\
       InspectionNotes d `prefix_of` InspectionNotes d').
Proof.
  intros RTrip Hd. split.
  - intros ctx i out.
    destruct (invoke_persisted ctx i w drugID d RTrip Hd)
      as [[Hsame Hd']|[(to & ts & -> & Hr & Hd')|(reason & ts1 & ts2 & -> & Hr & Hd')]];
      eexists; (split; [exact Hd'|]); fold out; fold out in Hsame || fold out in Hr.
    + destruct i; try reflexivity. cbn [updates] in Hsame. rewrite Hsame. reflexivity.
    + reflexivity.
    + rewrite Hr, String.eqb_refl. cbn [succeeded andb]. eauto.
  - intros calls.
    apply (invokeAll_persisted
             (fun a b => InspectionNotes a `prefix_of` InspectionNotes b) RTrip);
      [reflexivity|intros a b c; apply transitivity|..|exact Hd].
    + intros a to ts. reflexivity.
    + intros a reason ts1 ts2. cbn. apply prefix_app_r. reflexivity.
Qed.

End Handover.

(** ** Ledgers that only the contract has written *)
Section Written.
Context `{RT : Runtime}.

Lemma contractRecord_registered (drugID name batchNumber mfgDate expiryDate composition ts : string) :
  contractRecord drugID
    (mkDrug drugID name "Cipla" batchNumber mfgDate expiryDate composition "Cipla"
       "InProduction" [ts +:+ "|Created|Cipla|-|Batch: " +:+ batchNumber] false []).
Proof.
  unfold contractRecord. cbn. repeat split; eauto; try discriminate; try lia.
Qed.

Lemma head_app_keep (l : list string) (x y : string) :
  head l = Some x -> head (l ++ [y]) = Some x.
Proof. destruct l; [discriminate|]. intros H. exact H. Qed.

Lemma contractRecord_shipped (key to line : string) (d : Drug) :
  contractRecord key d ->
  contractRecord key
    (set_History (History d ++ [line]) (set_Status "InTransit" (set_CurrentOwner to d))).
Proof.
  intros (Hid & Hm & [ts Hhd] & Hst & Hprod & Hrec & Hnotes & Hlen).
  unfold contractRecord. cbn. rewrite length_app. cbn.
  repeat split; eauto using head_app_keep; try discriminate; try lia; apply Hnotes.
Qed.

Lemma contractRecord_recalled (key note line : string) (d : Drug) :
  contractRecord key d ->
  contractRecord key
    (set_History (History d ++ [line])
       (set_InspectionNotes (InspectionNotes d ++ [note])
          (set_Status "Recalled" (set_IsRecalled true d)))).
Proof.
  intros (Hid & Hm & [ts Hhd] & Hst & Hprod & Hrec & Hnotes & Hlen).
  unfold contractRecord. cbn. rewrite !length_app. cbn.
  repeat split; eauto using head_app_keep; try discriminate; try lia.
  intros _ Hnil. destruct (InspectionNotes d); discriminate.
Qed.

Lemma contractLedger_insert (w w' : World) (key : string) (d : Drug) :
  contractLedger w -> contractRecord key d ->
  ledger w' = <[key := json_Marshal d]> (ledger w) ->
  contractLedger w'.
Proof.
  intros Hw Hd Hl k data. rewrite Hl, lookup_insert.
  case_decide as Hk.
  - intros [= <-]. subst k. eauto.
  - apply Hw.
Qed.

(** Each invocation keeps the ledger one that the contract has written. *)
Lemma invoke_contractLedger (ctx : TransactionContext) (i : Invocation) (w : World) :
  json_roundtrip -> contractLedger w -> contractLedger (snd (invoke ctx i w)).
Proof.
  intros RTrip Hw.
  assert (forall w', ledger w' = ledger w -> contractLedger w') as Hsame.
  { intros w' Hl k data. rewrite Hl. apply Hw. }
  destruct i as [k name batchNumber mfgDate expiryDate composition|k to|k reason|k];
    [cbn [invoke]..|].
  - destruct (RegisterDrug_inv ctx k name batchNumber mfgDate expiryDate composition w)
      as [[_ Hl]|(_ & _ & Hl)]; [auto|].
    eapply contractLedger_insert; [exact Hw| |exact Hl].
    apply contractRecord_registered.
  - destruct (ShipDrug_inv ctx k to w) as [[_ Hl]|(_ & data & d & Hk & Hdec & Hl)]; [auto|].
    destruct (Hw k data Hk) as (d0 & -> & Hd0).
    rewrite RTrip in Hdec. injection Hdec as <-.
    eapply contractLedger_insert; [exact Hw| |exact Hl].
    apply contractRecord_shipped. exact Hd0.
  - destruct (RecallDrug_inv ctx k reason w) as [[_ Hl]|(_ & data & d & e & Hk & Hdec & Hl)];
      [auto|].
    destruct (Hw k data Hk) as (d0 & -> & Hd0).
    rewrite RTrip in Hdec. injection Hdec as <- <-.
    eapply contractLedger_insert; [exact Hw| |exact Hl].
    apply contractRecord_recalled. exact Hd0.
  - rewrite invoke_TrackDrug. exact Hw.
Qed.

Lemma invokeAll_contractLedger (calls : list (TransactionContext * Invocation)) :
  json_roundtrip ->
  forall w : World, contractLedger w -> contractLedger (invokeAll calls w).
Proof.
  intros RTrip. induction calls as [|[ctx i] calls IH]; intros w Hw; [exact Hw|].
  cbn [invokeAll fold_left fst snd]. apply IH. apply invoke_contractLedger; assumption.
Qed.

Lemma empty_contractLedger (w : World) : ledger w = ∅ -> contractLedger w.
Proof. intros Hl k data. rewrite Hl, lookup_empty. discriminate. Qed.

(** On such a ledger the persisted record of a key is the record whose
    encoding is stored there. *)
Lemma contractLedger_persisted (w : World) (key : string) (d : Drug) :
  json_roundtrip -> contractLedger w -> persisted w key = Some d ->
  ledger w !! key = Some (json_Marshal d) /\ contractRecord key d.
Proof.
  intros RTrip Hw (data & Hk & Hdec)%persisted_Some.
  destruct (Hw key data Hk) as (d0 & -> & Hd0).
  rewrite RTrip in Hdec. injection Hdec as <-. split; assumption.
Qed.

End Written.

Section Reachable.
Context `{RT : Runtime}.

(** Each invocation leaves the ledger alone or writes the encoding of a
    record. *)
Lemma invoke_writes_encodings (ctx : TransactionContext) (i : Invocation) (w : World) :
  ledger (snd (invoke ctx i w)) = ledger w
  \/ exists d, ledger (snd (invoke ctx i w)) = <[target i := json_Marshal d]> (ledger w).
Proof.
  destruct i as [k name batchNumber mfgDate expiryDate composition|k to|k reason|k];
    [cbn [invoke target]..|].
  - destruct (RegisterDrug_inv ctx k name batchNumber mfgDate expiryDate composition w)
      as [[_ Hl]|(_ & _ & Hl)]; eauto.
  - destruct (ShipDrug_inv ctx k to w) as [[_ Hl]|(_ & data & d & _ & _ & Hl)]; eauto.
  - destruct (RecallDrug_inv ctx k reason w) as [[_ Hl]|(_ & data & d & e & _ & _ & Hl)];
      eauto.
  - left. rewrite invoke_TrackDrug. reflexivity.
Qed.

Lemma invokeAll_writes_encodings (calls : list (TransactionContext * Invocation)) :
  forall w : World,
    (forall key data, ledger w !! key = Some data -> exists d, data = json_Marshal d) ->
    forall key data, ledger (invokeAll calls w) !! key = Some data ->
                     exists d, data = json_Marshal d.
Proof.
  induction calls as [|[ctx i] calls IH]; intros w Hw; [exact Hw|].
  cbn [invokeAll fold_left fst snd]. apply IH. intros key data.
  destruct (invoke_writes_encodings ctx i w) as [Hl|[d Hl]]; rewrite Hl; [apply Hw|].
  rewrite lookup_insert. case_decide; [|apply Hw]. intros [= <-]. eauto.
Qed.

(** X12.  Starting from an empty ledger, whatever is invoked by whomever,
    every entry of the ledger is the encoding of a record; so with a codec
    that reads its own output every entry decodes without error, the error
    that [RecallDrug] discards is always nil there and [ShipDrug] never
    returns a decoding error. *)
Theorem contract_written_entries_decode (w0 : World)
    (calls : list (TransactionContext * Invocation)) :
  json_reads_own_output -> ledger w0 = ∅ ->
  let w := invokeAll calls w0 in
  (forall key data, ledger w !! key = Some data ->
     (exists d, data = json_Marshal d) /\
     snd (json_Unmarshal data Drug0) = None /\
     exists d', persisted w key = Some d') /\
  (forall ctx drugID to msg, fst (ShipDrug ctx drugID to w) <> Err (ErrJSON msg)).
Proof.
  intros Hown Hempty w.
  assert (forall key data, ledger w !! key = Some data -> exists d, data = json_Marshal d)
    as Hw.
  { apply invokeAll_writes_encodings. intros key data. rewrite Hempty, lookup_empty.
    discriminate. }
  split.
  - intros key data Hk. destruct (Hw key data Hk) as [d ->].
    split; [eauto|]. split; [apply Hown|].
    pose proof (Hown d) as He.
    destruct (json_Unmarshal (json_Marshal d) Drug0) as [d' e] eqn:Hdec.
    cbn [snd] in He. subst e. exists d'. apply persisted_Some. eauto.
  - intros ctx drugID to msg Hrun.
    destruct (GetState_fails ctx drugID) as [m|] eqn:Hget.
    { rewrite ShipDrug_not_found in Hrun by (left; congruence). discriminate. }
    destruct (ledger w !! drugID) as [data|] eqn:Hk.
    2:{ rewrite ShipDrug_not_found in Hrun by (right; exact Hk). discriminate. }
    destruct (Hw drugID data Hk) as [d0 ->].
    pose proof (Hown d0) as He.
    destruct (json_Unmarshal (json_Marshal d0) Drug0) as [d e] eqn:Hdec.
    cbn [snd] in He. subst e.
    destruct (Z.lt_ge_cases (len (fst (GetMSPID ctx))) 3) as [Hlen|Hlen].
    { rewrite (ShipDrug_panics ctx drugID to w _ d Hget Hk Hdec Hlen) in Hrun.
      discriminate. }
    destruct (decide (CurrentOwner d = trimMSP (fst (GetMSPID ctx)))) as [Hown'|Hown'].
    + rewrite (ShipDrug_owner ctx drugID to w _ d Hget Hk Hdec Hlen Hown') in Hrun.
      destruct (PutState_fails ctx drugID _); discriminate.
    + rewrite (ShipDrug_not_owner ctx drugID to w _ d Hget Hk Hdec Hlen Hown') in Hrun.
      discriminate.
Qed.

(** X13.  On a ledger that only the contract has written, the status of a
    record is InProduction, InTransit or Recalled, never Delivered; and a
    record still InProduction is untouched since its registration: Cipla
    owns it, its history has one line and it is not recalled. *)
Theorem status_of_contract_written_records (w0 : World)
    (calls : list (TransactionContext * Invocation)) (drugID : string) (d : Drug) :
  json_roundtrip -> ledger w0 = ∅ ->
  persisted (invokeAll calls w0) drugID = Some d ->
  (Status d = "InProduction" \/ Status d = "InTransit" \/ Status d = "Recalled") /\
  Status d <> "Delivered" /\
  (Status d = "InProduction" ->
     CurrentOwner d = "Cipla" /\ List.length (History d) = 1 /\ IsRecalled d = false).
Proof.
  intros RTrip Hempty Hd.
  destruct (contractLedger_persisted _ drugID d RTrip
              (invokeAll_contractLedger calls RTrip w0 (empty_contractLedger w0 Hempty)) Hd)
    as (_ & _ & _ & _ & Hst & Hprod & _).
  split; [exact Hst|]. split; [|exact Hprod].
  destruct Hst as [->| [->| ->]]; discriminate.
Qed.

(** X14.  On a ledger that only the contract has written, a record is
    flagged as recalled exactly when it has an inspection note, a record
    with status Recalled is flagged, and there are fewer notes than history
    lines. *)
Theorem recalled_flag_matches_notes (w0 : World)
    (calls : list (TransactionContext * Invocation)) (drugID : string) (d : Drug) :
  json_roundtrip -> ledger w0 = ∅ ->
  persisted (invokeAll calls w0) drugID = Some d ->
  (IsRecalled d = true <-> InspectionNotes d <> []) /\
  (Status d = "Recalled" -> IsRecalled d = true) /\
  List.length (InspectionNotes d) < List.length (History d).
Proof.
  intros RTrip Hempty Hd.
  destruct (contractLedger_persisted _ drugID d RTrip
              (invokeAll_contractLedger calls RTrip w0 (empty_contractLedger w0 Hempty)) Hd)
    as (_ & _ & _ & _ & _ & _ & Hrec & Hnotes & Hlen).
  auto.
Qed.

(** X15.  On a ledger that only the contract has written, the history of a
    record is never empty and its first line is the Created line of the
    registration, from Cipla to "-", with the record's own batch number as
    detail. *)
Theorem history_starts_with_registration (w0 : World)
    (calls : list (TransactionContext * Invocation)) (drugID : string) (d : Drug) :
  json_roundtrip -> ledger w0 = ∅ ->
  persisted (invokeAll calls w0) drugID = Some d ->
  exists ts rest,
    History d = historyLine ts "Created" "Cipla" "-" ("Batch: " +:+ BatchNumber d) :: rest.
Proof.
  intros RTrip Hempty Hd.
  destruct (contractLedger_persisted _ drugID d RTrip
              (invokeAll_contractLedger calls RTrip w0 (empty_contractLedger w0 Hempty)) Hd)
    as (_ & _ & _ & [ts Hhd] & _).
  destruct (History d) as [|line rest]; [discriminate|].
  injection Hhd as ->. exists ts, rest. reflexivity.
Qed.

End Reachable.

Section FirstShipment.
Context `{RT : Runtime}.

(** X16.  Registration hands the batch to Cipla.  Take a [RegisterDrug] that
    succeeds and suppose the record it writes survives the codec.  Then a
    [ShipDrug] of that drug (MSP ID of at least three bytes, ledger readable
    and writable) succeeds if and only if the caller's MSP ID without its
    last three bytes is "Cipla", and the record it then writes is owned by
    the destination, InTransit, with a history made of the Created line
    followed by one Shipped line from Cipla to the destination. *)
Theorem registered_batch_is_shipped_by_Cipla (ctx ctx' : TransactionContext)
    (drugID name batchNumber mfgDate expiryDate composition to : string) (w : World) :
  fst (RegisterDrug ctx drugID name batchNumber mfgDate expiryDate composition w) = Ok tt ->
  reads_back
    (mkDrug drugID name "Cipla" batchNumber mfgDate expiryDate composition "Cipla"
       "InProduction"
       [historyLine (time_Now_Format (ticks w)) "Created" "Cipla" "-"
          ("Batch: " +:+ batchNumber)]
       false []) ->
  GetState_fails ctx' drugID = None ->
  (forall value, PutState_fails ctx' drugID value = None) ->
  (3 <= len (fst (GetMSPID ctx')))%Z ->
  let w' := snd (RegisterDrug ctx drugID name batchNumber mfgDate expiryDate composition w) in
  let out := ShipDrug ctx' drugID to w' in
  (fst out = Ok tt <-> trimMSP (fst (GetMSPID ctx')) = "Cipla") /\
  (trimMSP (fst (GetMSPID ctx')) = "Cipla" ->
     exists d', ledger (snd out) !! drugID = Some (json_Marshal d') /\
       CurrentOwner d' = to /\ Status d' = "InTransit" /\
       History d' =
         [historyLine (time_Now_Format (ticks w)) "Created" "Cipla" "-"
            ("Batch: " +:+ batchNumber);
          historyLine (time_Now_Format (ticks w')) "Shipped" "Cipla" to EmptyString] /\
       IsRecalled d' = false /\ InspectionNotes d' = [] /\
       DrugID d' = drugID /\ BatchNumber d' = batchNumber) /\
  (trimMSP (fst (GetMSPID ctx')) <> "Cipla" -> out = (Err ErrNotOwner, w')).
Proof.
  intros Hok Hback Hget Hput Hlen w' out.
  destruct (RegisterDrug_inv ctx drugID name batchNumber mfgDate expiryDate composition w)
    as [[Hr _]|(_ & _ & Hl)]; [contradiction|].
  fold w' in Hl. set (d := mkDrug _ _ _ _ _ _ _ _ _ _ _ _) in Hl.
  assert (ledger w' !! drugID = Some (json_Marshal d)) as Hk
    by (rewrite Hl; apply lookup_insert_eq).
  assert (json_Unmarshal (json_Marshal d) Drug0 = (d, None)) as Hdec by exact Hback.
  destruct (decide (trimMSP (fst (GetMSPID ctx')) = "Cipla")) as [Heq|Hne].
  - assert (CurrentOwner d = trimMSP (fst (GetMSPID ctx'))) as Hown by (symmetry; exact Heq).
    subst out.
    rewrite (ShipDrug_owner ctx' drugID to w' _ d Hget Hk Hdec Hlen Hown), Hput.
    cbn [fst snd ledger]. split; [tauto|]. split; [|contradiction]. intros _.
    eexists. split; [apply lookup_insert_eq|].
    repeat split.
  - assert (CurrentOwner d <> trimMSP (fst (GetMSPID ctx'))) as Hown by (cbn; congruence).
    subst out.
    rewrite (ShipDrug_not_owner ctx' drugID to w' _ d Hget Hk Hdec Hlen Hown).
    split; [|split; [contradiction|reflexivity]]. split; [discriminate|contradiction].
Qed.

End FirstShipment.

(** ** The further theorems on concrete ledgers *)
Section MoreExamples.
Import Scenario Tour.
#[local] Existing Instance Ref.runtime.

Lemma w1_ships : fst (ShipDrug cipla "DRUG-1" "Medlife" w1) = Ok tt.
Proof. vm_compute. reflexivity. Qed.

Lemma w1_medlife_refused :
  fst (invoke medlife (InvShipDrug "DRUG-1" "Apollo") w1) <> Ok tt.
Proof. vm_compute. discriminate. Qed.

Lemma cipla_length : (3 <= len (fst (GetMSPID cipla)))%Z.
Proof. vm_compute. discriminate. Qed.

Lemma medlife_length : (3 <= len (fst (GetMSPID medlife)))%Z.
Proof. vm_compute. discriminate. Qed.

(** The caller without identity reads DRUG-1. *)
Lemma TrackDrug_returns_the_persisted_record_witness :
  GetState_fails anonymous "DRUG-1" = None /\ persisted w1 "DRUG-1" = Some d1 /\
  exists doc, TrackDrug anonymous "DRUG-1" w1 = (Ok doc, w1) /\
              json_Unmarshal (bytes_of doc) Drug0 = (d1, None).
Proof.
  split; [reflexivity|]. split; [exact w1_persisted|].
  exact (TrackDrug_returns_the_persisted_record anonymous "DRUG-1" w1 d1 eq_refl
           w1_persisted).
Defined.

(** Registering DRUG-2 leaves the entry of DRUG-1 alone. *)
Lemma invoke_leaves_other_keys_witness :
  let i := InvRegisterDrug "DRUG-2" "Ibuprofen" "B101" "2024-02-01" "2026-02-01"
             "Ibuprofen 200mg" in
  "DRUG-1" <> target i /\
  ledger (snd (invoke cipla i w1)) !! "DRUG-1" = ledger w1 !! "DRUG-1".
Proof.
  cbv zeta.
  assert ("DRUG-1" <> target (InvRegisterDrug "DRUG-2" "Ibuprofen" "B101" "2024-02-01"
                                "2026-02-01" "Ibuprofen 200mg")) as Hne by discriminate.
  split; [exact Hne|].
  exact (invoke_leaves_other_keys cipla _ w1 "DRUG-1" Hne).
Defined.

(** Medlife, who does not own DRUG-1, fails to ship it and writes nothing. *)
Lemma failed_invocation_writes_nothing_witness :
  fst (invoke medlife (InvShipDrug "DRUG-1" "Apollo") w1) <> Ok tt /\
  ledger (snd (invoke medlife (InvShipDrug "DRUG-1" "Apollo") w1)) = ledger w1.
Proof.
  split; [exact w1_medlife_refused|].
  exact (failed_invocation_writes_nothing medlife _ w1 w1_medlife_refused).
Defined.

(** The entry of DRUG-1 survives its recall. *)
Lemma entries_come_from_RegisterDrug_witness :
  is_Some (ledger w1 !! "DRUG-1") /\
  is_Some (ledger (snd (invoke cdsco (InvRecallDrug "DRUG-1" "contamination") w1))
             !! "DRUG-1").
Proof.
  assert (is_Some (ledger w1 !! "DRUG-1")) as Hk by (rewrite w1_entry; eauto).
  split; [exact Hk|].
  exact (proj1 (entries_come_from_RegisterDrug cdsco
                  (InvRecallDrug "DRUG-1" "contamination") w1 "DRUG-1") Hk).
Defined.

(** The refused shipment leaves the record of DRUG-1 as it is. *)
Lemma persisted_record_changed_only_by_update_witness :
  persisted w1 "DRUG-1" = Some d1 /\
  persisted (snd (invoke medlife (InvShipDrug "DRUG-1" "Apollo") w1)) "DRUG-1" = Some d1.
Proof.
  split; [exact w1_persisted|].
  apply (persisted_record_changed_only_by_update medlife _ w1 "DRUG-1" d1
           RefFacts.roundtrip w1_persisted).
  vm_compute. reflexivity.
Defined.

(** Cipla behind a stub that cannot read. *)
Lemma GetState_failure_is_reported_witness :
  GetState_fails (blind "CiplaMSP") "DRUG-1" = Some "ledger unavailable" /\
  RegisterDrug (blind "CiplaMSP") "DRUG-1" "Placebo" "B200" "2025-01-01" "2027-01-01"
    "Sugar" w1 = (Err (ErrStub "ledger unavailable"), w1) /\
  TrackDrug (blind "CiplaMSP") "DRUG-1" w1 = (Err (ErrNotFound "DRUG-1"), w1).
Proof.
  split; [reflexivity|].
  destruct (GetState_failure_is_reported (blind "CiplaMSP") "DRUG-1"
              "ledger unavailable" w1 eq_refl) as (Hreg & _ & _ & Htrack).
  split; [|exact Htrack].
  exact (Hreg "Placebo" "B200" "2025-01-01" "2027-01-01" "Sugar" eq_refl).
Defined.

(** Cipla behind a stub that refuses writes ships DRUG-1: the error comes
    back, the ledger is as before, the event is set. *)
Lemma PutState_failure_is_reported_witness :
  GetState_fails (readonly "CiplaMSP") "DRUG-1" = None /\
  (forall value, PutState_fails (readonly "CiplaMSP") "DRUG-1" value = Some "write refused") /\
  let out := ShipDrug (readonly "CiplaMSP") "DRUG-1" "Medlife" w1 in
  fst out = Err (ErrStub "write refused") /\ ledger (snd out) = ledger w1 /\
  events (snd out) = (events w1 ++ [("DrugShipped", bytes_of "DRUG-1")])%list.
Proof.
  split; [reflexivity|]. split; [reflexivity|].
  destruct (PutState_failure_is_reported (readonly "CiplaMSP") "DRUG-1" "write refused"
              w1 eq_refl (fun _ => eq_refl)) as (_ & Hship & _).
  exact (Hship "Medlife" (json_Marshal d1) d1 w1_entry (RefFacts.roundtrip d1)
           cipla_length eq_refl).
Defined.

(** Cipla with an identity error is refused by [RegisterDrug]. *)
Lemma identity_error_is_dropped_by_ShipDrug_only_witness :
  let ctx' := mkCtx ("CiplaMSP", Some "certificate expired")
                (GetState_fails cipla) (PutState_fails cipla) in
  Some "certificate expired" <> @None string /\
  ShipDrug ctx' "DRUG-1" "Medlife" w1 = ShipDrug cipla "DRUG-1" "Medlife" w1 /\
  RegisterDrug ctx' "DRUG-2" "Ibuprofen" "B101" "2024-02-01" "2026-02-01"
    "Ibuprofen 200mg" w1 = (Err ErrOnlyManufacturer, w1).
Proof.
  cbv zeta.
  assert (Some "certificate expired" <> @None string) as Herr by discriminate.
  split; [exact Herr|].
  destruct (identity_error_is_dropped_by_ShipDrug_only cipla (Some "certificate expired")
              "DRUG-2" w1) as [_ Hreg].
  split.
  - exact (proj1 (identity_error_is_dropped_by_ShipDrug_only cipla
                    (Some "certificate expired") "DRUG-1" w1) "Medlife").
  - exact (proj1 (Hreg Herr) "Ibuprofen" "B101" "2024-02-01" "2026-02-01"
             "Ibuprofen 200mg").
Defined.

(** The caller CiplaXYZ ships Cipla's batch. *)
Lemma ShipDrug_accepts_any_three_byte_suffix_witness :
  fst (GetMSPID (caller "CiplaXYZ")) = "Cipla" +:+ "XYZ" /\ String.length "XYZ" = 3 /\
  "Cipla" = CurrentOwner d1 /\
  fst (ShipDrug (caller "CiplaXYZ") "DRUG-1" "Medlife" w1) = Ok tt.
Proof.
  split; [reflexivity|]. split; [reflexivity|]. split; [reflexivity|].
  exact (proj1 (ShipDrug_accepts_any_three_byte_suffix (caller "CiplaXYZ") "DRUG-1"
                  "Medlife" "Cipla" "XYZ" w1 (json_Marshal d1) d1 eq_refl w1_entry
                  (RefFacts.roundtrip d1) (fun _ => eq_refl) eq_refl eq_refl) eq_refl).
Defined.

(** Cipla ships DRUG-1 to Medlife; then Medlife can ship it and Cipla cannot. *)
Lemma custody_moves_with_the_shipment_witness :
  ledger w1 !! "DRUG-1" = Some (json_Marshal d1) /\
  json_Unmarshal (json_Marshal d1) Drug0 = (d1, None) /\
  fst (ShipDrug cipla "DRUG-1" "Medlife" w1) = Ok tt /\
  let w' := snd (ShipDrug cipla "DRUG-1" "Medlife" w1) in
  fst (ShipDrug medlife "DRUG-1" "Apollo" w') = Ok tt /\
  ShipDrug cipla "DRUG-1" "Apollo" w' = (Err ErrNotOwner, w').
Proof.
  split; [exact w1_entry|]. split; [exact (RefFacts.roundtrip d1)|].
  split; [exact w1_ships|]. cbv zeta. split.
  - apply (custody_moves_with_the_shipment cipla medlife "DRUG-1" "Medlife" "Apollo" w1
             (json_Marshal d1) d1 w1_entry (RefFacts.roundtrip d1) w1_ships
             (RefFacts.roundtrip _) eq_refl (fun _ => eq_refl) medlife_length).
    reflexivity.
  - apply (custody_moves_with_the_shipment cipla cipla "DRUG-1" "Medlife" "Apollo" w1
             (json_Marshal d1) d1 w1_entry (RefFacts.roundtrip d1) w1_ships
             (RefFacts.roundtrip _) eq_refl (fun _ => eq_refl) cipla_length).
    discriminate.
Defined.

(** The notes of DRUG-1 after its recall are kept by what follows. *)
Lemma notes_are_written_by_recalls_only_witness :
  persisted w2 "DRUG-1" = Some d2 /\
  exists d', persisted (invokeAll later w2) "DRUG-1" = Some d' /\
             InspectionNotes d2 `prefix_of` InspectionNotes d'.
Proof.
  split; [exact w2_persisted|].
  exact (proj2 (notes_are_written_by_recalls_only w2 "DRUG-1" d2 RefFacts.roundtrip
                  w2_persisted) later).
Defined.

Lemma story_DRUG1 : exists d, persisted (invokeAll story w0) "DRUG-1" = Some d.
Proof. eexists. vm_compute. reflexivity. Qed.

Lemma story_DRUG2 : exists d, persisted (invokeAll story w0) "DRUG-2" = Some d.
Proof. eexists. vm_compute. reflexivity. Qed.

Lemma Ref_reads_own_output : json_reads_own_output.
Proof. intros d. rewrite RefFacts.roundtrip. reflexivity. Qed.

(** After the story both entries decode. *)
Lemma contract_written_entries_decode_witness :
  ledger w0 = ∅ /\
  forall key data, ledger (invokeAll story w0) !! key = Some data ->
    (exists d, data = json_Marshal d) /\
    snd (json_Unmarshal data Drug0) = None /\
    exists d', persisted (invokeAll story w0) key = Some d'.
Proof.
  split; [reflexivity|].
  exact (proj1 (contract_written_entries_decode w0 story Ref_reads_own_output eq_refl)).
Defined.

(** After the story DRUG-1 is not Delivered. *)
Lemma status_of_contract_written_records_witness :
  ledger w0 = ∅ /\
  exists d, persisted (invokeAll story w0) "DRUG-1" = Some d /\ Status d <> "Delivered".
Proof.
  split; [reflexivity|]. destruct story_DRUG1 as [d Hd]. exists d. split; [exact Hd|].
  exact (proj1 (proj2 (status_of_contract_written_records w0 story "DRUG-1" d
                         RefFacts.roundtrip eq_refl Hd))).
Defined.

(** After the story DRUG-2 is flagged exactly if it has a note. *)
Lemma recalled_flag_matches_notes_witness :
  ledger w0 = ∅ /\
  exists d, persisted (invokeAll story w0) "DRUG-2" = Some d /\
            (IsRecalled d = true <-> InspectionNotes d <> []).
Proof.
  split; [reflexivity|]. destruct story_DRUG2 as [d Hd]. exists d. split; [exact Hd|].
  exact (proj1 (recalled_flag_matches_notes w0 story "DRUG-2" d RefFacts.roundtrip
                  eq_refl Hd)).
Defined.

(** After the story the history of DRUG-1 starts with its Created line. *)
Lemma history_starts_with_registration_witness :
  ledger w0 = ∅ /\
  exists d, persisted (invokeAll story w0) "DRUG-1" = Some d /\
    exists ts rest,
      History d = historyLine ts "Created" "Cipla" "-" ("Batch: " +:+ BatchNumber d) :: rest.
Proof.
  split; [reflexivity|]. destruct story_DRUG1 as [d Hd]. exists d. split; [exact Hd|].
  exact (history_starts_with_registration w0 story "DRUG-1" d RefFacts.roundtrip
           eq_refl Hd).
Defined.

(** Cipla registers DRUG-1 on the empty ledger and ships it. *)
Lemma registered_batch_is_shipped_by_Cipla_witness :
  fst (RegisterDrug cipla "DRUG-1" "ParacetamolX" "B100" "2024-01-01" "2026-01-01"
         "Paracetamol 500mg" w0) = Ok tt /\
  reads_back d1 /\
  fst (ShipDrug cipla "DRUG-1" "Medlife" w1) = Ok tt.
Proof.
  assert (fst (RegisterDrug cipla "DRUG-1" "ParacetamolX" "B100" "2024-01-01"
                 "2026-01-01" "Paracetamol 500mg" w0) = Ok tt) as Hok
    by (vm_compute; reflexivity).
  split; [exact Hok|]. split; [exact (RefFacts.roundtrip d1)|].
  apply (registered_batch_is_shipped_by_Cipla cipla cipla "DRUG-1" "ParacetamolX" "B100"
           "2024-01-01" "2026-01-01" "Paracetamol 500mg" "Medlife" w0
           Hok (RefFacts.roundtrip _) eq_refl (fun _ => eq_refl) cipla_length).
  reflexivity.
Defined.

End MoreExamples.
